(** * FrameworkVersionEnforcer: the [framework_version] modifier of the
      v2 migration tool

    A shallow embedding of
    [src/sagemaker/cli/compatibility/v2/modifiers/framework_version.py].

    The Python module works on [ast.Call] nodes.  The embedding keeps

    - the AST as an inductive type (the node classes the module inspects,
      plus the ones a keyword value or a callee can be), and the values
      of the literals as a type of Python values;
    - Python exceptions as an error monad [result];
    - the in-place mutation done by [modify_node] as a state monad over
      the node, whose state survives an exception (a node that was
      extended before the exception stays extended);
    - the dictionary [FRAMEWORK_DEFAULTS] as a [gmap];
    - Python's [str] methods ([endswith], [find], slicing, [lower],
      [split]) and the built-in [int].

    The [ast] module is that of Python 3.8 to 3.13: every literal is an
    [ast.Constant], [ast.Str(s=...)] builds one, and the field [s] the
    source reads is the value of the constant, whatever its type.

    A [str] is a [string] with one character per code point, so the
    model has the strings whose code points are below 256; [int] is
    exact on them. *)

From Stdlib Require Import ZArith String Ascii List Bool Lia SpecFloat.
From stdpp Require Import base option list gmap strings.

Local Open Scope string_scope.
Local Open Scope list_scope.
Local Open Scope Z_scope.

(** ** Python exceptions *)

Inductive exn : Type :=
| AttributeError
| KeyError
| TypeError
| ValueError.

Inductive result (A : Type) : Type :=
| Ok (a : A)
| Raise (e : exn).

Arguments Ok {A} a.
Arguments Raise {A} e.

#[global] Instance result_ret : MRet result := fun _ a => Ok a.
#[global] Instance result_bind : MBind result := fun _ _ k m =>
  match m with
  | Ok a => k a
  | Raise e => Raise e
  end.

(** ** Python string primitives

    A [str] is a [string]: the characters are the code points, all
    below 256. *)

Module PyStr.

(** [s.endswith(suffix)] *)
Definition endswith (s suffix : string) : bool :=
  let n := String.length s in
  let m := String.length suffix in
  (m <=? n)%nat && String.eqb (substring (n - m) m s) suffix.

(** [s.find(sub)]: lowest index of [sub] in [s], [-1] when there is
    none. *)
Definition find (s sub : string) : Z :=
  match String.index 0 sub s with
  | Some i => Z.of_nat i
  | None => -1
  end.

(** [s[:k]]; a negative [k] counts from the end, and the bounds are
    clipped to the string. *)
Definition slice_to (s : string) (k : Z) : string :=
  let n := Z.of_nat (String.length s) in
  let stop := if k <? 0 then Z.max 0 (n + k) else Z.min k n in
  substring 0 (Z.to_nat stop) s.

(** [c.lower()] for one character.  Below code point 256 the upper-case
    letters are A to Z and U+00C0 to U+00DE without the multiplication
    sign U+00D7; each has its lower-case letter 32 places on. *)
Definition lower_char (c : ascii) : ascii :=
  let n := nat_of_ascii c in
  if (((65 <=? n) && (n <=? 90))
      || ((192 <=? n) && (n <=? 222) && negb (n =? 215)))%nat
  then ascii_of_nat (n + 32) else c.

(** [s.lower()] *)
Fixpoint lower (s : string) : string :=
  match s with
  | EmptyString => EmptyString
  | String c r => String (lower_char c) (lower r)
  end.

(** [s.split(sep)] for a one-character separator: the pieces between
    the separators, empty pieces included; the empty string gives one
    empty piece. *)
Fixpoint split_on (sep : ascii) (s : string) : list string :=
  match s with
  | EmptyString => [EmptyString]
  | String c r =>
      if Ascii.eqb c sep then EmptyString :: split_on sep r
      else match split_on sep r with
           | piece :: pieces => String c piece :: pieces
           | [] => [String c EmptyString]
           end
  end.

(** Truth value of a string: the empty string is false. *)
Definition truthy (s : string) : bool :=
  negb (String.eqb s "").

(** *** The built-in [int] on a string, base ten

    Surrounding white space is dropped, one sign is allowed, the digits
    may be grouped by single underscores; anything else raises
    [ValueError].  (The interpreter's limit on the number of digits, a
    setting of the process, is not part of the model.) *)

(** The white space [int] drops: tab to carriage return, the space, and,
    of the code points from 127 on, U+0085 and U+00A0.  The separators
    U+001C to U+001F are not dropped. *)
Definition is_space (c : ascii) : bool :=
  let n := nat_of_ascii c in
  (((9 <=? n) && (n <=? 13)) || (n =? 32) || (n =? 133) || (n =? 160))%nat.

(** The decimal digits: below code point 256 there are only 0 to 9. *)
Definition is_digit (c : ascii) : bool :=
  let n := nat_of_ascii c in
  ((48 <=? n) && (n <=? 57))%nat.

Definition digit_val (c : ascii) : Z :=
  Z.of_nat (nat_of_ascii c) - 48.

Fixpoint lstrip (s : string) : string :=
  match s with
  | String c r => if is_space c then lstrip r else s
  | EmptyString => EmptyString
  end.

Fixpoint rstrip (s : string) : string :=
  match s with
  | EmptyString => EmptyString
  | String c r =>
      match rstrip r with
      | EmptyString => if is_space c then EmptyString else String c EmptyString
      | r' => String c r'
      end
  end.

Definition strip (s : string) : string := rstrip (lstrip s).

(** The digits after the sign.  [acc] is the value read so far;
    [after_digit] tells whether the previous character was a digit (an
    underscore is legal only between two digits). *)
Fixpoint digits (s : string) (acc : Z) (after_digit : bool) : result Z :=
  match s with
  | EmptyString => if after_digit then Ok acc else Raise ValueError
  | String c r =>
      if is_digit c then digits r (10 * acc + digit_val c) true
      else if Ascii.eqb c "_" && after_digit then
        match r with
        | String d _ => if is_digit d then digits r acc false else Raise ValueError
        | EmptyString => Raise ValueError
        end
      else Raise ValueError
  end.

Definition int (s : string) : result Z :=
  match strip s with
  | String "-" r => n ← digits r 0 false; Ok (- n)
  | String "+" r => digits r 0 false
  | t => digits t 0 false
  end.

End PyStr.

(** Comparison [a < b] of two Python lists of integers: the first
    position where they differ decides; when one is a prefix of the
    other, the shorter one is the smaller. *)
Fixpoint list_lt (a b : list Z) : bool :=
  match a, b with
  | [], [] => false
  | [], _ :: _ => true
  | _ :: _, [] => false
  | x :: a', y :: b' => if x =? y then list_lt a' b' else x <? y
  end.

(** ** Python values

    The values a literal of Python source has: what [ast.parse] puts in
    an [ast.Constant].  A float is the IEEE 754 number it denotes, a
    [bytes] is the string of its bytes. *)

Inductive pyval : Type :=
| VNone
| VEllipsis
| VBool (b : bool)
| VInt (n : Z)
| VFloat (f : spec_float)
| VComplex (re im : spec_float)
| VStr (s : string)
| VBytes (b : string).

Definition float_is_zero (f : spec_float) : bool :=
  match f with
  | S754_zero _ => true
  | _ => false
  end.

(** Truth value of a value. *)
Definition truthy (v : pyval) : bool :=
  match v with
  | VNone => false
  | VEllipsis => true
  | VBool b => b
  | VInt n => negb (n =? 0)
  | VFloat f => negb (float_is_zero f)
  | VComplex re im => negb (float_is_zero re && float_is_zero im)
  | VStr s => PyStr.truthy s
  | VBytes b => PyStr.truthy b
  end.

(** [v is None] *)
Definition is_None (v : pyval) : bool :=
  match v with
  | VNone => true
  | _ => false
  end.

(** [v.split(".")]: a [str] has the method; a [bytes] has it too, but
    refuses a [str] separator; the other values have no such
    attribute. *)
Definition split_dot (v : pyval) : result (list string) :=
  match v with
  | VStr s => Ok (PyStr.split_on "." s)
  | VBytes _ => Raise TypeError
  | _ => Raise AttributeError
  end.

(** ** The fragment of Python's [ast] the module reads

    [Name], [Attribute] and [Call] are the classes a callee or a computed
    keyword value is built from, and [Constant] is the class of every
    literal.  Only [Constant] has the field [s].  The remaining
    expression classes (operators, subscripts, displays, f-strings) are
    left out: like [Call] they are neither a name nor an attribute
    access and have no field [s], which is all the module asks of
    them. *)

Inductive expr : Type :=
| Name (id : string)
| Attribute (value : expr) (attr : string)
| Constant (value : pyval)
| Call (c : call)
with call : Type :=
| mkCall (func : expr) (args : list expr) (keywords : list keyword)
with keyword : Type :=
| mkKeyword (arg : option string) (value : expr).

(** [ast.Str(s=...)] builds the constant of a string. *)
Abbreviation Str s := (Constant (VStr s)).

Definition func (c : call) : expr :=
  let '(mkCall f _ _) := c in f.
Definition args (c : call) : list expr :=
  let '(mkCall _ a _) := c in a.
Definition keywords (c : call) : list keyword :=
  let '(mkCall _ _ k) := c in k.

(** [keyword.arg] is [None] for a [**kwargs] entry. *)
Definition kw_arg (kw : keyword) : option string :=
  let '(mkKeyword a _) := kw in a.
Definition kw_value (kw : keyword) : expr :=
  let '(mkKeyword _ v) := kw in v.

(** [e.s]: on a constant, its value, of whatever type; the other
    classes have no such attribute. *)
Definition attr_s (e : expr) : result pyval :=
  match e with
  | Constant v => Ok v
  | _ => Raise AttributeError
  end.

(** Truth value of an AST node: node classes define neither [__bool__]
    nor [__len__], so every node is true. *)
Definition node_truthy (e : expr) : bool := true.

(** [node.keywords.append(kw)] *)
Definition append_keyword (node : call) (kw : keyword) : call :=
  mkCall (func node) (args node) (keywords node ++ [kw]).


(** ** State of a call to [modify_node]

    [modify_node] extends the node it is given in place.  A computation
    takes the node and gives the node back with its outcome; the node
    keeps what was appended to it before an exception. *)

Definition M (A : Type) : Type := call → call * result A.

#[global] Instance M_ret : MRet M := fun _ a node => (node, Ok a).
#[global] Instance M_bind : MBind M := fun _ _ k m node =>
  match m node with
  | (node', Ok a) => k a node'
  | (node', Raise e) => (node', Raise e)
  end.

(** Evaluate a function of the node as it is now. *)
Definition reading {A : Type} (f : call → result A) : M A :=
  fun node => (node, f node).

(** [node.keywords.append(kw)] as a step. *)
Definition keywords_append (kw : keyword) : M unit :=
  fun node => (append_keyword node kw, Ok tt).

(** ** Module constants *)

Definition FRAMEWORK_ARG : string := "framework_version".
Definition PY_ARG : string := "py_version".

Definition FRAMEWORK_DEFAULTS : gmap string string :=
  list_to_map
    [ ("Chainer", "4.1.0");
      ("MXNet", "1.2.0");
      ("PyTorch", "0.4.0");
      ("SKLearn", "0.20.0");
      ("TensorFlow", "1.11.0") ].

(** [d[k]] *)
Definition getitem (d : gmap string string) (k : string) : result string :=
  match d !! k with
  | Some v => Ok v
  | None => Raise KeyError
  end.

(** [list(FRAMEWORK_DEFAULTS.keys())].  The three lists below are only
    tested for membership, so the order of the keys plays no role. *)
Definition FRAMEWORK_CLASSES : list string :=
  (map_to_list FRAMEWORK_DEFAULTS).*1.

Definition MODEL_CLASSES : list string :=
  (fun fw => fw +:+ "Model") <$> FRAMEWORK_CLASSES.

Definition FRAMEWORK_MODULES : list string :=
  PyStr.lower <$> FRAMEWORK_CLASSES.

Definition FRAMEWORK_SUBMODULES : list string := ["model"; "estimator"].

(** ** Module functions *)

(** The loop of [_arg_value] over [node.keywords]. *)
Fixpoint _arg_value_loop (kws : list keyword) (arg : string)
  : result pyval :=
  match kws with
  | [] => Ok VNone
  | kw :: rest =>
      if bool_decide (kw_arg kw = Some arg) && node_truthy (kw_value kw)
      then attr_s (kw_value kw)
      else _arg_value_loop rest arg
  end.

Definition _arg_value (node : call) (arg : string) : result pyval :=
  _arg_value_loop (keywords node) arg.

(** Truth value of what [_py_version_defaults] returns, a string or
    [None]. *)
Definition str_truthy (v : option string) : bool :=
  match v with
  | Some s => PyStr.truthy s
  | None => false
  end.

Definition _tf_py_version_default (framework_version : pyval)
  : result string :=
  if negb (truthy framework_version) then Ok "py2"
  else
    pieces ← split_dot framework_version;
    version ← mapM PyStr.int pieces;
    if list_lt version [1; 12] then Ok "py2"
    else if list_lt version [2; 2] then Ok "py3"
    else Ok "py37".

Definition _py_version_defaults
    (framework : string) (framework_version : pyval) (is_model : bool)
  : result (option string) :=
  if bool_decide (framework ∈ ["Chainer"; "PyTorch"]) then Ok (Some "py3")
  else if bool_decide (framework = "SKLearn") && negb is_model then Ok (Some "py3")
  else if bool_decide (framework = "MXNet") then Ok (Some "py2")
  else if bool_decide (framework = "TensorFlow") && negb is_model
  then v ← _tf_py_version_default framework_version; Ok (Some v)
  else Ok None.

Definition _framework_from_node (node : call) : string * bool :=
  let framework :=
    match func node with
    | Name id => id
    | Attribute _ attr => attr
    | _ => ""
    end in
  let is_model := PyStr.endswith framework "Model" in
  if is_model
  then (PyStr.slice_to framework (PyStr.find framework "Model"), is_model)
  else (framework, is_model).

(** [_is_in_framework_module(node)].  Both call sites pass an
    [ast.Attribute], the class whose field [value] the function reads;
    the last branch stands for the other classes, which no call site
    passes. *)
Definition _is_in_framework_module (node : expr) : bool :=
  match node with
  | Attribute value _ =>
      match value with
      | Attribute value' attr =>
          bool_decide (attr ∈ FRAMEWORK_MODULES)
          && match value' with
             | Name id => bool_decide (id = "sagemaker")
             | _ => false
             end
      | _ => false
      end
  | _ => false
  end.

Definition _is_named_constructor (node : call) (names : list string) : bool :=
  match func node with
  | Name id => bool_decide (id ∈ names)
  | Attribute value attr =>
      if negb (bool_decide (attr ∈ names)) then false
      else
        match value with
        | Attribute _ attr' =>
            if bool_decide (attr' ∈ FRAMEWORK_SUBMODULES)
            then _is_in_framework_module value
            else _is_in_framework_module (func node)
        | _ => _is_in_framework_module (func node)
        end
  | _ => false
  end.

Definition _version_args_needed (node : call) (image_arg : string)
  : result bool :=
  image_name ← _arg_value node image_arg;
  if truthy image_name then Ok false
  else
    framework_version ← _arg_value node FRAMEWORK_ARG;
    if is_None framework_version then Ok true
    else
      let '(framework, is_model) := _framework_from_node node in
      expecting_py_version ←
        _py_version_defaults framework framework_version is_model;
      if str_truthy expecting_py_version
      then py_version ← _arg_value node PY_ARG;
           Ok (is_None py_version)
      else Ok false.

Definition node_should_be_modified (node : call) : result bool :=
  if _is_named_constructor node FRAMEWORK_CLASSES
  then _version_args_needed node "image_name"
  else if _is_named_constructor node MODEL_CLASSES
  then _version_args_needed node "image"
  else Ok false.

Definition modify_node : M unit :=
  '(framework, is_model) ← reading (fun node => Ok (_framework_from_node node));
  framework_version ← reading (fun node => _arg_value node FRAMEWORK_ARG);
  framework_version ←
    (if is_None framework_version
     then
       v ← reading (fun _ => getitem FRAMEWORK_DEFAULTS framework);
       keywords_append (mkKeyword (Some FRAMEWORK_ARG) (Str v));;
       mret (VStr v)
     else mret framework_version);
  py_version ← reading (fun node => _arg_value node PY_ARG);
  if is_None py_version
  then
    py_version ←
      reading (fun _ =>
        _py_version_defaults framework framework_version is_model);
    match py_version with
    | Some v =>
        if PyStr.truthy v
        then keywords_append (mkKeyword (Some PY_ARG) (Str v))
        else mret tt
    | None => mret tt
    end
  else mret tt.


(** ** Vocabulary of the statements *)

(** No keyword of the call is named [a]. *)
Definition absent (a : string) (node : call) : Prop :=
  Forall (fun kw => kw_arg kw ≠ Some a) (keywords node).

(** The call binds the keyword [a] to the expression [v]: [a=v] is the
    first entry named [a].  Python rejects a call that repeats a keyword,
    so in parsed source it is the only entry of that name. *)
Definition binds (node : call) (a : string) (v : expr) : Prop :=
  ∃ pre post,
    keywords node = pre ++ mkKeyword (Some a) v :: post
    ∧ Forall (fun kw => kw_arg kw ≠ Some a) pre.

(** The lookup of [a] finds no value: the call has no keyword [a], or
    binds it to the literal [None]. *)
Definition unsupplied (a : string) (node : call) : Prop :=
  absent a node ∨ binds node a (Constant VNone).

(** The comprehension of [_tf_py_version_default] on a [str]:
    [[int(s) for s in framework_version.split(".")]] *)
Definition version_list (framework_version : string) : result (list Z) :=
  mapM PyStr.int (PyStr.split_on "." framework_version).

(** The buckets of the TensorFlow default. *)
Definition tf_bucket (version : list Z) : string :=
  if list_lt version [1; 12] then "py2"
  else if list_lt version [2; 2] then "py3"
  else "py37".

(** The last component of the callee is [name]: the callee is [name] or
    [<expression>.name]. *)
Definition trailing_name (node : call) (name : string) : Prop :=
  func node = Name name ∨ ∃ e, func node = Attribute e name.

(** The call with every keyword named [a] taken out. *)
Definition without_keyword (a : string) (node : call) : call :=
  mkCall (func node) (args node)
         (filter (fun kw => kw_arg kw ≠ Some a) (keywords node)).

Definition framework_keyword (v : string) : keyword :=
  mkKeyword (Some FRAMEWORK_ARG) (Str v).
Definition py_keyword (v : string) : keyword :=
  mkKeyword (Some PY_ARG) (Str v).

(** [sagemaker.<m>] *)
Definition sagemaker_module (m : string) : expr :=
  Attribute (Name "sagemaker") m.

(** The second half of [modify_node]: the [py_version] keyword. *)
Definition py_version_step
    (framework : string) (is_model : bool) (framework_version : pyval)
    (node : call) : call * result unit :=
  match _arg_value node PY_ARG with
  | Raise e => (node, Raise e)
  | Ok py_version =>
      if is_None py_version
      then
        match _py_version_defaults framework framework_version is_model with
        | Raise e => (node, Raise e)
        | Ok None => (node, Ok tt)
        | Ok (Some v) =>
            if PyStr.truthy v then (append_keyword node (py_keyword v), Ok tt)
            else (node, Ok tt)
        end
      else (node, Ok tt)
  end.

(** Tuple-lexicographic order on integer sequences, as a relation. *)
Inductive lex_lt : list Z → list Z → Prop :=
| lex_lt_nil y b : lex_lt [] (y :: b)
| lex_lt_head x a y b : x < y → lex_lt (x :: a) (y :: b)
| lex_lt_tail x a b : lex_lt a b → lex_lt (x :: a) (x :: b).

(** A non-empty string of decimal digits, and the number it writes. *)
Fixpoint all_digits (s : string) : Prop :=
  match s with
  | EmptyString => True
  | String c r => PyStr.is_digit c = true ∧ all_digits r
  end.

Definition is_number (s : string) : Prop :=
  s ≠ "" ∧ all_digits s.

Fixpoint decimal_from (acc : Z) (s : string) : Z :=
  match s with
  | EmptyString => acc
  | String c r => decimal_from (10 * acc + PyStr.digit_val c) r
  end.

Definition decimal_value (s : string) : Z := decimal_from 0 s.

(** [".".join(pieces)] *)
Fixpoint dotted (pieces : list string) : string :=
  match pieces with
  | [] => ""
  | [p] => p
  | p :: rest => p +:+ "." +:+ dotted rest
  end.

(** The character [c] occurs in [s]. *)
Fixpoint occurs (c : ascii) (s : string) : Prop :=
  match s with
  | EmptyString => False
  | String d r => c = d ∨ occurs c r
  end.

(** A character [int] accepts nowhere in its argument. *)
Definition not_in_number (c : ascii) : Prop :=
  PyStr.is_digit c = false ∧ PyStr.is_space c = false
  ∧ c ≠ "_"%char ∧ c ≠ "-"%char ∧ c ≠ "+"%char.

(** The names of the keywords of a call, [**kwargs] entries left out. *)
Definition keyword_names (node : call) : list string :=
  omap kw_arg (keywords node).

(** What makes the default raise, by the type of the version. *)
Definition raising_version (fv : pyval) (e : exn) : Prop :=
  (e = ValueError
   ∧ ∃ v p, fv = VStr v ∧ v ≠ ""
            ∧ p ∈ PyStr.split_on "." v ∧ PyStr.int p = Raise ValueError)
  ∨ (e = TypeError ∧ ∃ b, fv = VBytes b ∧ b ≠ "")
  ∨ (e = AttributeError ∧ truthy fv = true
     ∧ (∀ s, fv ≠ VStr s) ∧ (∀ b, fv ≠ VBytes b)).

(** The evaluator asks for versions: the image argument is absent or a
    literal that is false ([None], an empty string, zero), and either
    [framework_version] is unsupplied, or it is a literal, a non-empty
    [py_version] default is due for it and [py_version] is
    unsupplied. *)
Definition versions_missing (node : call) (image_arg : string) : Prop :=
  (absent image_arg node
   ∨ ∃ i, binds node image_arg (Constant i) ∧ truthy i = false)
  ∧ (unsupplied FRAMEWORK_ARG node
     ∨ ∃ v p,
         binds node FRAMEWORK_ARG (Constant v)
         ∧ v ≠ VNone
         ∧ _py_version_defaults (_framework_from_node node).1 v
             (_framework_from_node node).2 = Ok (Some p)
         ∧ p ≠ ""
         ∧ unsupplied PY_ARG node).

(** ** The constant tables *)

(** Membership in a list written out: turn it into the disjunction of
    the equalities. *)
Ltac elem_cases :=
  rewrite ?elem_of_cons, ?elem_of_nil in *.

Lemma FRAMEWORK_CLASSES_eq :
  FRAMEWORK_CLASSES = ["SKLearn"; "Chainer"; "MXNet"; "TensorFlow"; "PyTorch"].
Proof. vm_compute. reflexivity. Qed.

Lemma MODEL_CLASSES_eq :
  MODEL_CLASSES =
  ["SKLearnModel"; "ChainerModel"; "MXNetModel"; "TensorFlowModel"; "PyTorchModel"].
Proof. vm_compute. reflexivity. Qed.

Lemma FRAMEWORK_MODULES_eq :
  FRAMEWORK_MODULES = ["sklearn"; "chainer"; "mxnet"; "tensorflow"; "pytorch"].
Proof. vm_compute. reflexivity. Qed.

Lemma elem_of_FRAMEWORK_CLASSES (x : string) :
  x ∈ FRAMEWORK_CLASSES
  ↔ x ∈ ["Chainer"; "MXNet"; "PyTorch"; "SKLearn"; "TensorFlow"].
Proof. rewrite FRAMEWORK_CLASSES_eq. elem_cases. tauto. Qed.

Lemma elem_of_MODEL_CLASSES (x : string) :
  x ∈ MODEL_CLASSES
  ↔ x ∈ ["ChainerModel"; "MXNetModel"; "PyTorchModel"; "SKLearnModel";
         "TensorFlowModel"].
Proof. rewrite MODEL_CLASSES_eq. elem_cases. tauto. Qed.

Lemma elem_of_FRAMEWORK_MODULES (x : string) :
  x ∈ FRAMEWORK_MODULES
  ↔ x ∈ ["chainer"; "mxnet"; "pytorch"; "sklearn"; "tensorflow"].
Proof. rewrite FRAMEWORK_MODULES_eq. elem_cases. tauto. Qed.

(** The keys of the table are the five framework names. *)
Lemma FRAMEWORK_DEFAULTS_lookup (fw v : string) :
  FRAMEWORK_DEFAULTS !! fw = Some v
  ↔ (fw, v) ∈ [ ("Chainer", "4.1.0"); ("MXNet", "1.2.0"); ("PyTorch", "0.4.0");
                ("SKLearn", "0.20.0"); ("TensorFlow", "1.11.0") ].
Proof.
  unfold FRAMEWORK_DEFAULTS. rewrite <- elem_of_list_to_map; [done|].
  vm_compute. repeat constructor; elem_cases; intuition discriminate.
Qed.

(** A goal that assumes [false = true]. *)
Ltac false_true :=
  lazymatch goal with
  | |- false = true → _ =>
      let H := fresh in intro H; exact (False_ind _ (Bool.diff_false_true H))
  end.

(** From here on the tables are used through the lemmas above. *)
#[global] Opaque FRAMEWORK_DEFAULTS FRAMEWORK_CLASSES MODEL_CLASSES
  FRAMEWORK_MODULES.

(** ** The keyword lookup *)

Section ArgValue.

Variable a : string.

Lemma arg_value_loop_absent (kws : list keyword) :
  Forall (fun kw => kw_arg kw ≠ Some a) kws →
  _arg_value_loop kws a = Ok VNone.
Proof.
  induction 1 as [|kw kws Hkw _ IH]; simpl; [done|].
  rewrite bool_decide_eq_false_2 by done. exact IH.
Qed.

(** The first entry named [a] decides. *)
Lemma arg_value_loop_first (pre post : list keyword) (v : expr) :
  Forall (fun kw => kw_arg kw ≠ Some a) pre →
  _arg_value_loop (pre ++ mkKeyword (Some a) v :: post) a = attr_s v.
Proof.
  induction 1 as [|kw kws Hkw _ IH]; simpl.
  - rewrite bool_decide_eq_true_2 by done. reflexivity.
  - rewrite bool_decide_eq_false_2 by done. exact IH.
Qed.

(** A keyword list has no entry named [a], or a first one. *)
Lemma first_keyword (kws : list keyword) :
  Forall (fun kw => kw_arg kw ≠ Some a) kws
  ∨ ∃ pre v post,
      kws = pre ++ mkKeyword (Some a) v :: post
      ∧ Forall (fun kw => kw_arg kw ≠ Some a) pre.
Proof.
  induction kws as [|kw kws IH]; [by left|].
  destruct (decide (kw_arg kw = Some a)) as [Heq|Hne].
  - right. destruct kw as [arg v]. simpl in Heq. subst arg.
    exists [], v, kws. by split.
  - destruct IH as [Hall|(pre & v & post & -> & Hpre)].
    + left. by constructor.
    + right. exists (kw :: pre), v, post. split; [done|]. by constructor.
Qed.

(** Entries appended to the list are read only when the list has no
    entry named [a]. *)
Lemma arg_value_loop_app_absent (kws extra : list keyword) :
  Forall (fun kw => kw_arg kw ≠ Some a) kws →
  _arg_value_loop (kws ++ extra) a = _arg_value_loop extra a.
Proof.
  induction 1 as [|kw kws Hkw _ IH]; simpl; [done|].
  rewrite bool_decide_eq_false_2 by done. exact IH.
Qed.

Lemma arg_value_loop_app_first (pre post extra : list keyword) (v : expr) :
  Forall (fun kw => kw_arg kw ≠ Some a) pre →
  _arg_value_loop ((pre ++ mkKeyword (Some a) v :: post) ++ extra) a
  = _arg_value_loop (pre ++ mkKeyword (Some a) v :: post) a.
Proof.
  intros Hpre. rewrite <- app_assoc, <- app_comm_cons.
  by rewrite !arg_value_loop_first.
Qed.

Lemma arg_value_loop_app_other (kws extra : list keyword) :
  Forall (fun kw => kw_arg kw ≠ Some a) extra →
  _arg_value_loop (kws ++ extra) a = _arg_value_loop kws a.
Proof.
  intros H. destruct (first_keyword kws) as [Habs|(pre & v & post & -> & Hpre)].
  - rewrite (arg_value_loop_app_absent _ _ Habs).
    by rewrite (arg_value_loop_absent extra H), (arg_value_loop_absent kws Habs).
  - by apply arg_value_loop_app_first.
Qed.

Lemma arg_value_loop_filter_other (b : string) (kws : list keyword) :
  a ≠ b →
  _arg_value_loop (filter (fun kw => kw_arg kw ≠ Some b) kws) a
  = _arg_value_loop kws a.
Proof.
  intros Hab. induction kws as [|kw kws IH]; [done|].
  rewrite filter_cons. destruct (decide (kw_arg kw ≠ Some b)) as [Hkw|Hkw]; simpl.
  - rewrite IH. reflexivity.
  - apply dec_stable in Hkw. rewrite IH.
    rewrite bool_decide_eq_false_2; [done|]. congruence.
Qed.

Lemma arg_value_absent (node : call) :
  absent a node → _arg_value node a = Ok VNone.
Proof. apply arg_value_loop_absent. Qed.

Lemma arg_value_binds (node : call) (v : expr) :
  binds node a v → _arg_value node a = attr_s v.
Proof.
  intros (pre & post & Hk & Hpre). unfold _arg_value. rewrite Hk.
  by apply arg_value_loop_first.
Qed.

Lemma absent_or_binds (node : call) :
  absent a node ∨ ∃ v, binds node a v.
Proof.
  destruct (first_keyword (keywords node)) as [H|(pre & v & post & H & Hpre)].
  - by left.
  - right. exists v, pre, post. by split.
Qed.

Lemma arg_value_unsupplied (node : call) :
  unsupplied a node → _arg_value node a = Ok VNone.
Proof.
  intros [Habs|Hb]; [by apply arg_value_absent|].
  by rewrite (arg_value_binds _ _ Hb).
Qed.

(** The lookup gives the value [v] when the call binds the keyword to
    the literal [v], and, for [None], also when the keyword is not
    there. *)
Lemma arg_value_Ok (node : call) (v : pyval) :
  _arg_value node a = Ok v →
  binds node a (Constant v) ∨ (v = VNone ∧ absent a node).
Proof.
  intros Hv. destruct (absent_or_binds node) as [Habs|[x Hb]].
  - right. rewrite (arg_value_absent _ Habs) in Hv. by injection Hv as <-.
  - left. rewrite (arg_value_binds _ _ Hb) in Hv.
    destruct x; simpl in Hv; try discriminate. by injection Hv as <-.
Qed.

Lemma arg_value_None (node : call) :
  _arg_value node a = Ok VNone → unsupplied a node.
Proof. intros [Hb|[_ Habs]]%arg_value_Ok; [by right|by left]. Qed.

Lemma arg_value_Raise_binds (node : call) (e : exn) :
  _arg_value node a = Raise e →
  e = AttributeError ∧ ∃ x, binds node a x ∧ ∀ v, x ≠ Constant v.
Proof.
  intros He. destruct (absent_or_binds node) as [Habs|[x Hb]].
  - rewrite (arg_value_absent _ Habs) in He. discriminate.
  - rewrite (arg_value_binds _ _ Hb) in He.
    destruct x; simpl in He; try discriminate; injection He as <-;
      (split; [done|]); eexists; (split; [exact Hb|]); intros v; discriminate.
Qed.

(** A keyword bound to an expression without the field [s] makes the
    lookup fail. *)
Lemma arg_value_computed (node : call) (x : expr) :
  binds node a x → (∀ v, x ≠ Constant v) →
  _arg_value node a = Raise AttributeError.
Proof.
  intros Hb Hx. rewrite (arg_value_binds _ _ Hb).
  destruct x; try reflexivity. by destruct (Hx value).
Qed.

End ArgValue.

Lemma is_None_true (v : pyval) : is_None v = true ↔ v = VNone.
Proof. destruct v; simpl; split; (done || discriminate). Qed.

Lemma is_None_false (v : pyval) : is_None v = false ↔ v ≠ VNone.
Proof. destruct v; simpl; split; (done || discriminate). Qed.

(** ** The call-site matcher *)

Lemma is_in_framework_module_spec (node : expr) :
  _is_in_framework_module node = true
  ↔ ∃ m attr, node = Attribute (sagemaker_module m) attr ∧ m ∈ FRAMEWORK_MODULES.
Proof.
  split.
  - destruct node as [|value attr| |]; simpl; try false_true.
    destruct value as [|value' m| |]; try false_true.
    rewrite andb_true_iff, bool_decide_eq_true.
    destruct value' as [id| | |]; intros [Hm Hid];
      try exact (False_ind _ (Bool.diff_false_true Hid)).
    apply bool_decide_eq_true in Hid. subst id. by exists m, attr.
  - intros (m & attr & -> & Hm). simpl.
    rewrite bool_decide_eq_true_2 by done. reflexivity.
Qed.

Lemma submodule_not_module (x : string) :
  x ∈ FRAMEWORK_SUBMODULES → x ∈ FRAMEWORK_MODULES → False.
Proof.
  rewrite elem_of_FRAMEWORK_MODULES. unfold FRAMEWORK_SUBMODULES.
  elem_cases. intros [->|[->|[]]]; intuition discriminate.
Qed.

Lemma is_named_constructor_iff (node : call) (names : list string) :
  _is_named_constructor node names = true
  ↔ (∃ id, func node = Name id ∧ id ∈ names)
    ∨ (∃ m c, func node = Attribute (sagemaker_module m) c
              ∧ m ∈ FRAMEWORK_MODULES ∧ c ∈ names)
    ∨ (∃ m sub c, func node = Attribute (Attribute (sagemaker_module m) sub) c
                  ∧ m ∈ FRAMEWORK_MODULES ∧ sub ∈ FRAMEWORK_SUBMODULES
                  ∧ c ∈ names).
Proof.
  unfold _is_named_constructor. destruct (func node) as [id|value c| |].
  - rewrite bool_decide_eq_true. split.
    + intros H. left. by exists id.
    + intros [(? & [= <-] & H)|[(? & ? & [=] & _)|(? & ? & ? & [=] & _)]]. done.
  - split.
    + case_bool_decide as Hc; cbn [negb]; [|false_true].
      destruct value as [|value' sub| |]; try (simpl; false_true).
      case_bool_decide as Hsub.
      * intros (m & attr & [= -> ->] & Hm)%is_in_framework_module_spec.
        right. right. by exists m, attr, c.
      * intros (m & attr & [= -> -> ->] & Hm)%is_in_framework_module_spec.
        right. left. by exists m, attr.
    + intros [(? & [=] & _)|[(m & ? & [= -> <-] & Hm & Hc)
                            |(m & sub & ? & [= -> <-] & Hm & Hsub & Hc)]].
      * rewrite bool_decide_eq_true_2 by exact Hc. cbn [negb sagemaker_module].
        case_bool_decide as Hsub.
        { destruct (submodule_not_module _ Hsub Hm). }
        apply is_in_framework_module_spec. by exists m, c.
      * rewrite bool_decide_eq_true_2 by exact Hc. cbn [negb].
        rewrite bool_decide_eq_true_2 by exact Hsub.
        apply is_in_framework_module_spec. by exists m, sub.
  - split; [false_true|].
    intros [(? & [=] & _)|[(? & ? & [=] & _)|(? & ? & ? & [=] & _)]].
  - split; [false_true|].
    intros [(? & [=] & _)|[(? & ? & [=] & _)|(? & ? & ? & [=] & _)]].
Qed.

(** The matcher reads the callee only. *)
Lemma is_named_constructor_func (node node' : call) (names : list string) :
  func node' = func node →
  _is_named_constructor node' names = _is_named_constructor node names.
Proof. unfold _is_named_constructor. by intros ->. Qed.

Lemma framework_from_node_func (node node' : call) :
  func node' = func node →
  _framework_from_node node' = _framework_from_node node.
Proof. unfold _framework_from_node. by intros ->. Qed.

(** The last component of a matched callee is one of the names. *)
Lemma is_named_constructor_trailing (node : call) (names : list string) :
  _is_named_constructor node names = true →
  ∃ name, name ∈ names ∧ trailing_name node name.
Proof.
  intros [(id & Hf & Hid)|[(m & c & Hf & _ & Hc)|(m & sub & c & Hf & _ & _ & Hc)]]
    %is_named_constructor_iff.
  - exists id. split; [done|]. by left.
  - exists c. split; [done|]. right. eauto.
  - exists c. split; [done|]. right. eauto.
Qed.

(** ** The framework of a call *)

Lemma framework_from_node_trailing (node : call) (name : string) :
  trailing_name node name →
  _framework_from_node node
  = if PyStr.endswith name "Model"
    then (PyStr.slice_to name (PyStr.find name "Model"), true)
    else (name, false).
Proof.
  unfold _framework_from_node.
  intros [->|[e ->]]; destruct (PyStr.endswith name "Model"); reflexivity.
Qed.

Lemma framework_from_estimator (node : call) (name : string) :
  name ∈ FRAMEWORK_CLASSES → trailing_name node name →
  _framework_from_node node = (name, false).
Proof.
  intros Hname Ht. rewrite (framework_from_node_trailing _ _ Ht).
  apply elem_of_FRAMEWORK_CLASSES in Hname. elem_cases.
  destruct Hname as [->|[->|[->|[->|[->|[]]]]]]; reflexivity.
Qed.

Lemma framework_from_model (node : call) (name : string) :
  name ∈ MODEL_CLASSES → trailing_name node name →
  ∃ fw, fw ∈ FRAMEWORK_CLASSES ∧ name = fw +:+ "Model"
        ∧ _framework_from_node node = (fw, true).
Proof.
  intros Hname Ht. rewrite (framework_from_node_trailing _ _ Ht).
  apply elem_of_MODEL_CLASSES in Hname. elem_cases.
  destruct Hname as [->|[->|[->|[->|[->|[]]]]]];
    [exists "Chainer"|exists "MXNet"|exists "PyTorch"|exists "SKLearn"
    |exists "TensorFlow"];
    (split; [apply elem_of_FRAMEWORK_CLASSES; elem_cases; tauto|]);
    split; reflexivity.
Qed.

Lemma getitem_defaults (fw : string) :
  fw ∈ FRAMEWORK_CLASSES → ∃ v, getitem FRAMEWORK_DEFAULTS fw = Ok v.
Proof.
  intros H%elem_of_FRAMEWORK_CLASSES. elem_cases.
  destruct H as [->|[->|[->|[->|[->|[]]]]]]; eexists; vm_compute; reflexivity.
Qed.

(** ** [modify_node] step by step *)

Lemma modify_node_unfold (node : call) :
  modify_node node
  = let '(framework, is_model) := _framework_from_node node in
    match _arg_value node FRAMEWORK_ARG with
    | Raise e => (node, Raise e)
    | Ok framework_version =>
        if is_None framework_version
        then
          match getitem FRAMEWORK_DEFAULTS framework with
          | Raise e => (node, Raise e)
          | Ok v =>
              py_version_step framework is_model (VStr v)
                (append_keyword node (framework_keyword v))
          end
        else py_version_step framework is_model framework_version node
    end.
Proof.
  unfold modify_node, py_version_step, mbind, M_bind, reading, keywords_append,
    mret, M_ret.
  destruct (_framework_from_node node) as [framework is_model].
  destruct (_arg_value node FRAMEWORK_ARG) as [fv|e]; [|reflexivity].
  destruct (is_None fv).
  - destruct (getitem FRAMEWORK_DEFAULTS framework) as [v|?]; [|reflexivity].
    destruct (_arg_value _ PY_ARG) as [py|?]; [|reflexivity].
    destruct (is_None py); [|reflexivity].
    destruct (_py_version_defaults framework (VStr v) is_model) as [[p|]|?];
      try reflexivity.
    destruct (PyStr.truthy p); reflexivity.
  - destruct (_arg_value node PY_ARG) as [py|?]; [|reflexivity].
    destruct (is_None py); [|reflexivity].
    destruct (_py_version_defaults framework fv is_model) as [[p|]|?];
      try reflexivity.
    destruct (PyStr.truthy p); reflexivity.
Qed.

Lemma arg_value_append_other (node : call) (kw : keyword) (a : string) :
  kw_arg kw ≠ Some a →
  _arg_value (append_keyword node kw) a = _arg_value node a.
Proof.
  intros H. unfold _arg_value. simpl.
  apply arg_value_loop_app_other. by constructor.
Qed.

Lemma arg_value_append_absent (node : call) (a : string) (v : expr) :
  absent a node →
  _arg_value (append_keyword node (mkKeyword (Some a) v)) a = attr_s v.
Proof.
  intros H. unfold _arg_value. simpl.
  rewrite (arg_value_loop_app_absent a _ _ H). simpl.
  rewrite bool_decide_eq_true_2 by done. reflexivity.
Qed.

(** When the call has a keyword [a], one appended is not read. *)
Lemma arg_value_append_binds (node : call) (a : string) (x : expr) (kw : keyword) :
  binds node a x →
  _arg_value (append_keyword node kw) a = _arg_value node a.
Proof.
  intros (pre & post & Hk & Hpre). unfold _arg_value. simpl. rewrite Hk.
  by apply arg_value_loop_app_first.
Qed.

Lemma truthy_nonempty (s : string) : PyStr.truthy s = true ↔ s ≠ "".
Proof.
  unfold PyStr.truthy. rewrite negb_true_iff. split.
  - intros H ->. discriminate.
  - intros H. by apply String.eqb_neq.
Qed.

Lemma call_eta (node : call) :
  node = mkCall (func node) (args node) (keywords node).
Proof. by destruct node. Qed.

Lemma py_version_step_frame
    (framework : string) (is_model : bool) (ver : pyval) (node : call) :
  ∃ py_added,
    (py_version_step framework is_model ver node).1
    = mkCall (func node) (args node) (keywords node ++ py_added)
    ∧ (py_added = []
       ∨ ∃ p, py_added = [py_keyword p] ∧ unsupplied PY_ARG node ∧ p ≠ ""
              ∧ _py_version_defaults framework ver is_model = Ok (Some p)).
Proof.
  assert (Hnone : (node = mkCall (func node) (args node) (keywords node ++ []))).
  { rewrite app_nil_r. apply call_eta. }
  unfold py_version_step.
  destruct (_arg_value node PY_ARG) as [py|?] eqn:Hpy;
    [|exists []; split; [exact Hnone|by left]].
  destruct (is_None py) eqn:Hnone_py;
    [|exists []; split; [exact Hnone|by left]].
  apply is_None_true in Hnone_py. subst py.
  destruct (_py_version_defaults framework ver is_model) as [[p|]|?]
    eqn:Hdef; [|exists []; split; [exact Hnone|by left]..].
  destruct (PyStr.truthy p) eqn:Hp; [|exists []; split; [exact Hnone|by left]].
  exists [py_keyword p]. split; [reflexivity|]. right. exists p.
  split; [done|]. split; [by apply arg_value_None|].
  split; [by apply truthy_nonempty|done].
Qed.

(** The keywords [modify_node] appends: each one only when the lookup
    of its name found no value. *)
Lemma modify_node_added (node : call) :
  func (modify_node node).1 = func node
  ∧ args (modify_node node).1 = args node
  ∧ ∃ fv_added py_added,
      keywords (modify_node node).1 = keywords node ++ fv_added ++ py_added
      ∧ (fv_added = []
         ∨ ∃ v, fv_added = [framework_keyword v]
                ∧ unsupplied FRAMEWORK_ARG node)
      ∧ (py_added = []
         ∨ ∃ p, py_added = [py_keyword p] ∧ unsupplied PY_ARG node).
Proof.
  rewrite modify_node_unfold.
  destruct (_framework_from_node node) as [framework is_model].
  assert (Hsame : func node = func node ∧ args node = args node
    ∧ ∃ fv_added py_added : list keyword,
        keywords node = keywords node ++ fv_added ++ py_added
        ∧ (fv_added = []
           ∨ ∃ v, fv_added = [framework_keyword v]
                  ∧ unsupplied FRAMEWORK_ARG node)
        ∧ (py_added = []
           ∨ ∃ p, py_added = [py_keyword p] ∧ unsupplied PY_ARG node)).
  { split; [done|]. split; [done|]. exists [], [].
    rewrite !app_nil_r. by auto. }
  destruct (_arg_value node FRAMEWORK_ARG) as [fv|e] eqn:Hfv; [|exact Hsame].
  destruct (is_None fv) eqn:Hnone.
  - apply is_None_true in Hnone. subst fv.
    destruct (getitem FRAMEWORK_DEFAULTS framework) as [v|]; [|exact Hsame].
    destruct (py_version_step_frame framework is_model (VStr v)
                (append_keyword node (framework_keyword v)))
      as (py_added & -> & Hpy). simpl.
    split; [done|]. split; [done|]. exists [framework_keyword v], py_added.
    split; [by rewrite <- app_assoc|].
    split.
    + right. exists v. split; [done|]. by apply arg_value_None.
    + destruct Hpy as [->|(p & -> & Huns & _)]; [by left|].
      right. exists p. split; [done|].
      apply arg_value_None. rewrite <- (arg_value_unsupplied _ _ Huns).
      symmetry. apply arg_value_append_other. discriminate.
  - destruct (py_version_step_frame framework is_model fv node)
      as (py_added & -> & Hpy). simpl.
    split; [done|]. split; [done|]. exists [], py_added.
    split; [done|]. split; [by left|].
    destruct Hpy as [->|(p & -> & ? & _)]; [by left|].
    right. by exists p.
Qed.

(** ** Defaults appended to an estimator call *)

(** Goals of the form [Forall _ l], for a list written out, whose
    elements are settled by computation. *)
Ltac forall_by_computation :=
  unfold absent; simpl; repeat constructor; discriminate.

Lemma append_two (node : call) (k1 k2 : keyword) :
  append_keyword (append_keyword node k1) k2
  = mkCall (func node) (args node) (keywords node ++ [k1; k2]).
Proof. unfold append_keyword. simpl. by rewrite <- app_assoc. Qed.

Lemma py_version_step_absent
    (framework : string) (is_model : bool) (ver : pyval) (p : string)
    (node : call) :
  unsupplied PY_ARG node →
  _py_version_defaults framework ver is_model = Ok (Some p) →
  p ≠ "" →
  py_version_step framework is_model ver node
  = (append_keyword node (py_keyword p), Ok tt).
Proof.
  intros Habs Hdef Hp. unfold py_version_step.
  rewrite (arg_value_unsupplied _ _ Habs), Hdef. simpl.
  apply truthy_nonempty in Hp. by rewrite Hp.
Qed.

Lemma absent_append (a : string) (node : call) (kw : keyword) :
  absent a node → kw_arg kw ≠ Some a → absent a (append_keyword node kw).
Proof.
  intros Hn Hkw. unfold absent. simpl. apply Forall_app. split; [done|].
  by constructor.
Qed.

(** One framework of C1: the components of the answer are settled by
    evaluating the table and the default. *)
Ltac finish_defaults_case :=
  split; [assumption|]; split; [vm_compute; reflexivity|];
  split; [elem_cases; tauto|];
  match goal with
  | H : ∀ v p, _ |- _ =>
      apply H; [vm_compute; reflexivity|vm_compute; reflexivity|discriminate]
  end.

(** C1.  On a call to one of the five estimator constructors that has no
    [image_name], [framework_version] or [py_version] keyword,
    [modify_node] appends [framework_version], with the table's value
    for that framework, and then [py_version], and ends normally.  In
    particular [MXNet(entry_point="train.py")] becomes
    [MXNet(entry_point="train.py", framework_version="1.2.0",
    py_version="py2")]. *)
Theorem modify_node_appends_defaults :
  (∀ node : call,
     _is_named_constructor node FRAMEWORK_CLASSES = true →
     absent "image_name" node →
     absent FRAMEWORK_ARG node →
     absent PY_ARG node →
     ∃ fw v p,
       _framework_from_node node = (fw, false)
       ∧ FRAMEWORK_DEFAULTS !! fw = Some v
       ∧ (fw, v, p) ∈ [ ("Chainer", "4.1.0", "py3"); ("MXNet", "1.2.0", "py2");
                        ("PyTorch", "0.4.0", "py3"); ("SKLearn", "0.20.0", "py3");
                        ("TensorFlow", "1.11.0", "py2") ]
       ∧ modify_node node
         = (mkCall (func node) (args node)
              (keywords node ++ [framework_keyword v; py_keyword p]),
            Ok tt))
  ∧ modify_node
      (mkCall (Name "MXNet") [] [mkKeyword (Some "entry_point") (Str "train.py")])
    = (mkCall (Name "MXNet") []
         [ mkKeyword (Some "entry_point") (Str "train.py");
           mkKeyword (Some "framework_version") (Str "1.2.0");
           mkKeyword (Some "py_version") (Str "py2") ],
       Ok tt).
Proof.
  split; [|vm_compute; reflexivity].
  intros node Hctor _ Hfv Hpy.
  destruct (is_named_constructor_trailing _ _ Hctor) as (name & Hname & Ht).
  pose proof (framework_from_estimator _ _ Hname Ht) as Hfw.
  assert (Hstep : ∀ v p,
    getitem FRAMEWORK_DEFAULTS name = Ok v →
    _py_version_defaults name (VStr v) false = Ok (Some p) →
    p ≠ "" →
    modify_node node
    = (mkCall (func node) (args node)
         (keywords node ++ [framework_keyword v; py_keyword p]), Ok tt)).
  { intros v p Hv Hdef Hp. rewrite modify_node_unfold, Hfw.
    rewrite (arg_value_absent _ _ Hfv), Hv. simpl.
    rewrite (py_version_step_absent _ _ _ p);
      [|by left; apply absent_append|done..].
    by rewrite append_two. }
  apply elem_of_FRAMEWORK_CLASSES in Hname. elem_cases.
  destruct Hname as [->|[->|[->|[->|[->|[]]]]]].
  - exists "Chainer", "4.1.0", "py3". finish_defaults_case.
  - exists "MXNet", "1.2.0", "py2". finish_defaults_case.
  - exists "PyTorch", "0.4.0", "py3". finish_defaults_case.
  - exists "SKLearn", "0.20.0", "py3". finish_defaults_case.
  - exists "TensorFlow", "1.11.0", "py2". finish_defaults_case.
Qed.

(** The defaults on [sagemaker.tensorflow.TensorFlow(entry_point="train.py", **kwargs)]. *)
Lemma modify_node_appends_defaults_witness :
  let node :=
    mkCall (Attribute (Attribute (Name "sagemaker") "tensorflow") "TensorFlow")
      [] [mkKeyword (Some "entry_point") (Str "train.py");
          mkKeyword None (Name "kwargs")] in
  ∃ fw v p,
    _framework_from_node node = (fw, false)
    ∧ FRAMEWORK_DEFAULTS !! fw = Some v
    ∧ (fw, v, p) ∈ [ ("Chainer", "4.1.0", "py3"); ("MXNet", "1.2.0", "py2");
                     ("PyTorch", "0.4.0", "py3"); ("SKLearn", "0.20.0", "py3");
                     ("TensorFlow", "1.11.0", "py2") ]
    ∧ modify_node node
      = (mkCall (func node) (args node)
           (keywords node ++ [framework_keyword v; py_keyword p]),
         Ok tt).
Proof.
  apply (proj1 modify_node_appends_defaults).
  - vm_compute. reflexivity.
  - forall_by_computation.
  - forall_by_computation.
  - forall_by_computation.
Defined.

(** ** Which exception each function can raise *)

Lemma arg_value_loop_raises (kws : list keyword) (a : string) (e : exn) :
  _arg_value_loop kws a = Raise e → e = AttributeError.
Proof.
  induction kws as [|kw kws IH]; simpl; [discriminate|].
  case_bool_decide; simpl; [|exact IH].
  destruct (kw_value kw); simpl; congruence.
Qed.

Lemma digits_raises (s : string) (acc : Z) (b : bool) (e : exn) :
  PyStr.digits s acc b = Raise e → e = ValueError.
Proof.
  revert acc b. induction s as [|c r IH]; intros acc b; simpl.
  - destruct b; congruence.
  - destruct (PyStr.is_digit c); [apply IH|].
    destruct (Ascii.eqb c "_" && b); [|congruence].
    destruct r as [|d r']; [congruence|].
    destruct (PyStr.is_digit d); [apply IH|congruence].
Qed.

Lemma int_raises (s : string) (e : exn) :
  PyStr.int s = Raise e → e = ValueError.
Proof.
  unfold PyStr.int.
  assert (Hneg : ∀ r, (n ← PyStr.digits r 0 false; Ok (- n)) = Raise e
                      → e = ValueError).
  { intros r. destruct (PyStr.digits r 0 false) eqn:Hd; simpl; [discriminate|].
    intros [= <-]. by eapply digits_raises. }
  destruct (PyStr.strip s) as [|c r]; [apply digits_raises|].
  destruct c as [[] [] [] [] [] [] [] []];
    first [apply Hneg | apply digits_raises].
Qed.

Lemma mapM_int_raises_ValueError (ps : list string) (e : exn) :
  mapM PyStr.int ps = Raise e → e = ValueError.
Proof.
  induction ps as [|p ps IH]; simpl.
  - discriminate.
  - destruct (PyStr.int p) eqn:Hp; simpl.
    + destruct (mapM PyStr.int ps); simpl; [discriminate|]. exact IH.
    + intros [= <-]. by eapply int_raises.
Qed.

Lemma version_list_raises (v : string) (e : exn) :
  version_list v = Raise e → e = ValueError.
Proof. apply mapM_int_raises_ValueError. Qed.

(** [_tf_py_version_default] by the type of the version. *)
Lemma tf_default_by_type (fv : pyval) :
  _tf_py_version_default fv
  = if negb (truthy fv) then Ok "py2"
    else match fv with
         | VStr s => version ← version_list s; Ok (tf_bucket version)
         | VBytes _ => Raise TypeError
         | _ => Raise AttributeError
         end.
Proof.
  unfold _tf_py_version_default, tf_bucket, version_list.
  destruct (truthy fv); [|reflexivity]. cbn [negb].
  destruct fv; try reflexivity. cbn [split_dot mbind result_bind].
  destruct (mapM PyStr.int (PyStr.split_on "." s)) as [ns|e]; [|reflexivity].
  cbn [mbind result_bind]. by repeat case_match.
Qed.

Lemma py_version_defaults_tf (v : pyval) :
  _py_version_defaults "TensorFlow" v false
  = (x ← _tf_py_version_default v; Ok (Some x)).
Proof. reflexivity. Qed.

(** The default is computed for a TensorFlow estimator only; the other
    frameworks and the models have a constant one. *)
Lemma py_version_defaults_cases
    (fw : string) (v : pyval) (is_model : bool) :
  (fw = "TensorFlow" ∧ is_model = false
   ∧ _py_version_defaults fw v is_model
     = (x ← _tf_py_version_default v; Ok (Some x)))
  ∨ ((fw ≠ "TensorFlow" ∨ is_model = true)
     ∧ ∃ d, ∀ v', _py_version_defaults fw v' is_model = Ok d).
Proof.
  destruct (decide (fw = "TensorFlow")) as [->|Hne].
  - destruct is_model.
    + right. split; [by right|]. exists None. intros v'. reflexivity.
    + left. by split.
  - right. split; [by left|]. unfold _py_version_defaults.
    rewrite (bool_decide_eq_false_2 (fw = "TensorFlow")) by done. cbn [andb].
    destruct (bool_decide (fw ∈ ["Chainer"; "PyTorch"]));
      [eexists; intros; reflexivity|].
    destruct (bool_decide (fw = "SKLearn") && negb is_model);
      [eexists; intros; reflexivity|].
    destruct (bool_decide (fw = "MXNet")); eexists; intros; reflexivity.
Qed.

Lemma py_version_defaults_not_KeyError
    (fw : string) (v : pyval) (is_model : bool) :
  _py_version_defaults fw v is_model ≠ Raise KeyError.
Proof.
  destruct (py_version_defaults_cases fw v is_model)
    as [(_ & _ & ->)|(_ & d & ->)]; [|discriminate].
  rewrite tf_default_by_type. destruct (truthy v); [|discriminate].
  cbn [negb]. destruct v; try discriminate. simpl.
  destruct (version_list s) as [ns|e] eqn:Hs; [discriminate|].
  apply version_list_raises in Hs. subst e. discriminate.
Qed.

(** ** What a positive answer of [node_should_be_modified] tells *)

Lemma node_should_be_modified_true (node : call) :
  node_should_be_modified node = Ok true →
  ∃ name fw is_model image_arg,
    trailing_name node name
    ∧ fw ∈ FRAMEWORK_CLASSES
    ∧ _framework_from_node node = (fw, is_model)
    ∧ (∀ node', func node' = func node →
         node_should_be_modified node' = _version_args_needed node' image_arg)
    ∧ image_arg ≠ FRAMEWORK_ARG ∧ image_arg ≠ PY_ARG.
Proof.
  unfold node_should_be_modified.
  destruct (_is_named_constructor node FRAMEWORK_CLASSES) eqn:He.
  - intros _. destruct (is_named_constructor_trailing _ _ He) as (name & Hn & Ht).
    exists name, name, false, "image_name".
    split; [done|]. split; [done|].
    split; [by apply framework_from_estimator|].
    split; [|by split].
    intros node' Hf. by rewrite (is_named_constructor_func _ _ _ Hf), He.
  - destruct (_is_named_constructor node MODEL_CLASSES) eqn:Hm;
      [|intros [=]].
    intros _. destruct (is_named_constructor_trailing _ _ Hm) as (name & Hn & Ht).
    destruct (framework_from_model _ _ Hn Ht) as (fw & Hfw & _ & Hffn).
    exists name, fw, true, "image".
    split; [done|]. split; [done|]. split; [done|]. split; [|by split].
    intros node' Hf. by rewrite !(is_named_constructor_func _ _ _ Hf), He, Hm.
Qed.

(** C9.  When [node_should_be_modified] answers true, the callee is a
    name or an attribute access (the branch of [_framework_from_node]
    that gives the empty identifier is not taken), the framework that
    [modify_node] derives is one of the five keys of
    [FRAMEWORK_DEFAULTS], the table lookup gives a value, and
    [modify_node] does not end with [KeyError]. *)
Theorem defaults_lookup_defined (node : call) :
  node_should_be_modified node = Ok true →
  let framework := (_framework_from_node node).1 in
  (∃ name, trailing_name node name)
  ∧ framework ∈ ["Chainer"; "MXNet"; "PyTorch"; "SKLearn"; "TensorFlow"]
  ∧ (∃ v, FRAMEWORK_DEFAULTS !! framework = Some v
          ∧ getitem FRAMEWORK_DEFAULTS framework = Ok v)
  ∧ (modify_node node).2 ≠ Raise KeyError.
Proof.
  intros (name & fw & is_model & image_arg & Ht & Hfw & Hffn & _)
    %node_should_be_modified_true.
  simpl. rewrite modify_node_unfold, Hffn. simpl.
  destruct (getitem_defaults _ Hfw) as [v Hv].
  split; [by exists name|]. split; [by apply elem_of_FRAMEWORK_CLASSES|].
  split.
  { exists v. split; [|done]. unfold getitem in Hv.
    destruct (FRAMEWORK_DEFAULTS !! fw); congruence. }
  assert (Hstep : ∀ ver n, (py_version_step fw is_model ver n).2 ≠ Raise KeyError).
  { intros ver n. unfold py_version_step.
    destruct (_arg_value n PY_ARG) as [py|e] eqn:Hpy; simpl.
    - destruct (is_None py); [|done].
      destruct (_py_version_defaults fw ver is_model) as [[p|]|e] eqn:Hd;
        simpl; [by destruct (PyStr.truthy p)|done|].
      intros [= ->]. by destruct (py_version_defaults_not_KeyError fw ver is_model).
    - apply arg_value_loop_raises in Hpy. congruence. }
  destruct (_arg_value node FRAMEWORK_ARG) as [fv|e] eqn:Hfv; simpl.
  - destruct (is_None fv); [|apply Hstep].
    rewrite Hv. apply Hstep.
  - apply arg_value_loop_raises in Hfv. congruence.
Qed.

(** The lookup on [PyTorchModel()]. *)
Lemma defaults_lookup_defined_witness :
  let node := mkCall (Name "PyTorchModel") [] [] in
  (∃ name, trailing_name node name)
  ∧ (_framework_from_node node).1
    ∈ ["Chainer"; "MXNet"; "PyTorch"; "SKLearn"; "TensorFlow"]
  ∧ (∃ v, FRAMEWORK_DEFAULTS !! (_framework_from_node node).1 = Some v
          ∧ getitem FRAMEWORK_DEFAULTS (_framework_from_node node).1 = Ok v)
  ∧ (modify_node node).2 ≠ Raise KeyError.
Proof.
  apply (defaults_lookup_defined (mkCall (Name "PyTorchModel") [] [])).
  vm_compute. reflexivity.
Defined.

(** ** The three callee shapes *)

(** C5.  [_is_named_constructor] answers true exactly on three callee
    shapes: a bare identifier that is one of the names;
    [sagemaker.<module>.<Class>]; and
    [sagemaker.<module>.<submodule>.<Class>] with the submodule [model]
    or [estimator]; where [<module>] is a framework name in lower case
    and [<Class>] is one of the names.  Every other callee gives false.
    In particular [TensorFlow(...)], [sagemaker.tensorflow.TensorFlow(...)]
    and [sagemaker.tensorflow.estimator.TensorFlow(...)] match, and
    [other.tensorflow.TensorFlow(...)] and
    [sagemaker.tensorflow.wrongsubmodule.TensorFlow(...)] do not. *)
Theorem matcher_accepts_three_shapes :
  (∀ (node : call) (names : list string),
     _is_named_constructor node names = true
     ↔ (∃ id, func node = Name id ∧ id ∈ names)
       ∨ (∃ m c,
            func node = Attribute (Attribute (Name "sagemaker") m) c
            ∧ m ∈ ["chainer"; "mxnet"; "pytorch"; "sklearn"; "tensorflow"]
            ∧ c ∈ names)
       ∨ (∃ m sub c,
            func node
            = Attribute (Attribute (Attribute (Name "sagemaker") m) sub) c
            ∧ m ∈ ["chainer"; "mxnet"; "pytorch"; "sklearn"; "tensorflow"]
            ∧ sub ∈ ["model"; "estimator"]
            ∧ c ∈ names))
  ∧ (∀ (a : list expr) (k : list keyword),
       _is_named_constructor (mkCall (Name "TensorFlow") a k) FRAMEWORK_CLASSES
       = true
       ∧ _is_named_constructor
           (mkCall (Attribute (Attribute (Name "sagemaker") "tensorflow")
                      "TensorFlow") a k)
           FRAMEWORK_CLASSES
         = true
       ∧ _is_named_constructor
           (mkCall
              (Attribute
                 (Attribute (Attribute (Name "sagemaker") "tensorflow")
                    "estimator")
                 "TensorFlow") a k)
           FRAMEWORK_CLASSES
         = true
       ∧ _is_named_constructor
           (mkCall (Attribute (Attribute (Name "other") "tensorflow")
                      "TensorFlow") a k)
           FRAMEWORK_CLASSES
         = false
       ∧ _is_named_constructor
           (mkCall
              (Attribute
                 (Attribute (Attribute (Name "sagemaker") "tensorflow")
                    "wrongsubmodule")
                 "TensorFlow") a k)
           FRAMEWORK_CLASSES
         = false).
Proof.
  split.
  - intros node names. rewrite is_named_constructor_iff.
    unfold sagemaker_module, FRAMEWORK_SUBMODULES.
    setoid_rewrite elem_of_FRAMEWORK_MODULES. reflexivity.
  - intros a k. repeat split; vm_compute; reflexivity.
Qed.

Lemma trailing_name_unique (node : call) (n1 n2 : string) :
  trailing_name node n1 → trailing_name node n2 → n1 = n2.
Proof. intros [H1|[? H1]] [H2|[? H2]]; congruence. Qed.

(** No call is both an estimator and a model constructor. *)
Lemma model_not_estimator (node : call) :
  _is_named_constructor node MODEL_CLASSES = true →
  _is_named_constructor node FRAMEWORK_CLASSES = false.
Proof.
  intros (n1 & Hn1 & Ht1)%is_named_constructor_trailing.
  apply not_true_is_false.
  intros (n2 & Hn2 & Ht2)%is_named_constructor_trailing.
  rewrite (trailing_name_unique _ _ _ Ht1 Ht2) in Hn1.
  apply elem_of_MODEL_CLASSES in Hn1. apply elem_of_FRAMEWORK_CLASSES in Hn2.
  elem_cases.
  destruct Hn2 as [->|[->|[->|[->|[->|[]]]]]]; intuition discriminate.
Qed.

(** ** An image makes the versions unnecessary *)

Lemma version_args_needed_image (node : call) (image_arg s : string) :
  s ≠ "" → binds node image_arg (Str s) →
  _version_args_needed node image_arg = Ok false.
Proof.
  intros Hs Hb. unfold _version_args_needed.
  rewrite (arg_value_binds _ _ _ Hb). simpl.
  apply truthy_nonempty in Hs. by rewrite Hs.
Qed.

(** C6.  A call to an estimator constructor that binds [image_name] to a
    non-empty string literal, and a call to a model constructor that
    binds [image] to one, make [node_should_be_modified] answer false,
    whatever the other keywords of the call are. *)
Theorem image_short_circuit (node : call) (s : string) :
  s ≠ "" →
  (_is_named_constructor node FRAMEWORK_CLASSES = true
   ∧ binds node "image_name" (Str s))
  ∨ (_is_named_constructor node MODEL_CLASSES = true
     ∧ binds node "image" (Str s)) →
  node_should_be_modified node = Ok false.
Proof.
  intros Hs [[He Hb]|[Hm Hb]]; unfold node_should_be_modified.
  - rewrite He. by eapply version_args_needed_image.
  - rewrite (model_not_estimator _ Hm), Hm. by eapply version_args_needed_image.
Qed.

(** A model call with an image and a computed version. *)
Lemma image_short_circuit_witness :
  node_should_be_modified
    (mkCall (Name "TensorFlowModel") []
       [mkKeyword (Some "model_data") (Name "data");
        mkKeyword (Some "image") (Str "my:image");
        mkKeyword (Some "framework_version") (Name "version")])
  = Ok false.
Proof.
  apply (image_short_circuit _ "my:image"); [discriminate|].
  right. split; [vm_compute; reflexivity|].
  exists [mkKeyword (Some "model_data") (Name "data")],
         [mkKeyword (Some "framework_version") (Name "version")].
  split; [reflexivity|]. repeat constructor. discriminate.
Defined.

(** ** Model classes *)

Lemma py_version_step_no_default
    (framework : string) (is_model : bool) (ver : pyval) (node : call) :
  _py_version_defaults framework ver is_model = Ok None →
  (py_version_step framework is_model ver node).1 = node.
Proof.
  intros Hdef. unfold py_version_step. rewrite Hdef.
  destruct (_arg_value node PY_ARG) as [py|?]; [|done].
  by destruct (is_None py).
Qed.

(** C7.  A callee whose last component is [PyTorchModel] gives the
    framework [PyTorch] with the model flag set, and the [py_version]
    default of a PyTorch model is [py3]; the same holds for
    [ChainerModel].  For [SKLearnModel] and [TensorFlowModel] the
    framework is [SKLearn] and [TensorFlow] with the model flag set, there
    is no [py_version] default, and what [modify_node] appends to the
    keywords of such a call contains no [py_version] keyword. *)
Theorem model_suffix_stripping :
  (∀ (node : call) (name fw : string),
     (name, fw) ∈ [("PyTorchModel", "PyTorch"); ("ChainerModel", "Chainer")] →
     trailing_name node name →
     _framework_from_node node = (fw, true)
     ∧ ∀ framework_version,
         _py_version_defaults fw framework_version true = Ok (Some "py3"))
  ∧ (∀ (node : call) (name fw : string),
       (name, fw) ∈ [("SKLearnModel", "SKLearn");
                     ("TensorFlowModel", "TensorFlow")] →
       trailing_name node name →
       _framework_from_node node = (fw, true)
       ∧ (∀ framework_version,
            _py_version_defaults fw framework_version true = Ok None)
       ∧ ∃ added,
           keywords (modify_node node).1 = keywords node ++ added
           ∧ Forall (fun kw => kw_arg kw ≠ Some PY_ARG) added).
Proof.
  split.
  - intros node name fw Hin Ht.
    rewrite (framework_from_node_trailing _ _ Ht). elem_cases.
    destruct Hin as [[= -> ->]|[[= -> ->]|[]]]; split; reflexivity.
  - intros node name fw Hin Ht.
    assert (Hffn : _framework_from_node node = (fw, true)).
    { rewrite (framework_from_node_trailing _ _ Ht). elem_cases.
      destruct Hin as [[= -> ->]|[[= -> ->]|[]]]; reflexivity. }
    assert (Hdef : ∀ v, _py_version_defaults fw v true = Ok None).
    { elem_cases. destruct Hin as [[= -> ->]|[[= -> ->]|[]]]; reflexivity. }
    split; [done|]. split; [done|].
    rewrite modify_node_unfold, Hffn.
    destruct (_arg_value node FRAMEWORK_ARG) as [v|e]; simpl;
      [destruct (is_None v)|].
    + destruct (getitem FRAMEWORK_DEFAULTS fw) as [v0|e]; simpl.
      * rewrite py_version_step_no_default by apply Hdef.
        exists [framework_keyword v0]. split; [done|].
        repeat constructor. discriminate.
      * exists []. by rewrite app_nil_r.
    + rewrite py_version_step_no_default by apply Hdef.
      exists []. by rewrite app_nil_r.
    + exists []. by rewrite app_nil_r.
Qed.

(** [PyTorchModel] and [sagemaker.sklearn.SKLearnModel(model_data=...)]. *)
Lemma model_suffix_stripping_witness :
  let node :=
    mkCall (Attribute (Attribute (Name "sagemaker") "sklearn") "SKLearnModel")
      [] [mkKeyword (Some "model_data") (Str "s3://bucket/model.tar.gz")] in
  (_framework_from_node (mkCall (Name "PyTorchModel") [] []) = ("PyTorch", true)
   ∧ ∀ framework_version,
       _py_version_defaults "PyTorch" framework_version true = Ok (Some "py3"))
  ∧ _framework_from_node node = ("SKLearn", true)
  ∧ (∀ framework_version,
       _py_version_defaults "SKLearn" framework_version true = Ok None)
  ∧ ∃ added,
      keywords (modify_node node).1 = keywords node ++ added
      ∧ Forall (fun kw => kw_arg kw ≠ Some PY_ARG) added.
Proof.
  split.
  - apply (proj1 model_suffix_stripping
             (mkCall (Name "PyTorchModel") [] []) "PyTorchModel" "PyTorch").
    + apply elem_of_cons. left. reflexivity.
    + left. reflexivity.
  - apply (proj2 model_suffix_stripping _ "SKLearnModel" "SKLearn").
    + apply elem_of_cons. left. reflexivity.
    + right. eexists. reflexivity.
Defined.

(** ** Empty string literals *)

Lemma arg_value_without_same (a : string) (node : call) :
  _arg_value (without_keyword a node) a = Ok VNone.
Proof.
  apply arg_value_absent. unfold absent. simpl.
  apply Forall_forall. by intros kw [? _]%list_elem_of_filter.
Qed.

Lemma arg_value_without_other (a b : string) (node : call) :
  a ≠ b → _arg_value (without_keyword b node) a = _arg_value node a.
Proof. intros H. by apply arg_value_loop_filter_other. Qed.

Lemma version_args_needed_true
    (node : call) (image_arg fw : string) (v : pyval) (p : string)
    (is_model : bool) :
  absent image_arg node →
  _arg_value node FRAMEWORK_ARG = Ok v →
  v ≠ VNone →
  _framework_from_node node = (fw, is_model) →
  _py_version_defaults fw v is_model = Ok (Some p) →
  p ≠ "" →
  unsupplied PY_ARG node →
  _version_args_needed node image_arg = Ok true.
Proof.
  intros Himg Hfv Hv Hffn Hdef Hp Hpy. unfold _version_args_needed.
  rewrite (arg_value_absent _ _ Himg). simpl. rewrite Hfv. simpl.
  apply is_None_false in Hv. rewrite Hv.
  rewrite Hffn, Hdef. simpl. apply truthy_nonempty in Hp. rewrite Hp.
  by rewrite (arg_value_unsupplied _ _ Hpy).
Qed.

(** No framework parses an empty version. *)
Lemma py_version_defaults_empty (fw : string) (is_model : bool) :
  ∃ d, _py_version_defaults fw (VStr "") is_model = Ok d.
Proof.
  destruct (py_version_defaults_cases fw (VStr "") is_model)
    as [(_ & _ & ->)|(_ & d & Hd)].
  - by eexists.
  - exists d. apply Hd.
Qed.

(** One framework of C10. *)
Ltac finish_empty_version_case :=
  split; [assumption|]; split; [elem_cases; tauto|];
  match goal with
  | H : ∀ p, _ |- _ => apply H; [vm_compute; reflexivity|discriminate]
  end.

(** C10.  An empty string literal for [framework_version] counts as a
    supplied version.  On a call to an estimator constructor that binds
    [framework_version] to the empty string and has no [image_name] and
    no [py_version] keyword, the lookup gives the empty string (not "no
    value"), [node_should_be_modified] answers true for the sake of
    [py_version] only, and [modify_node] appends the [py_version]
    keyword alone, no [framework_version]; for [TensorFlow] the empty
    version is in the lowest bucket and the value appended is [py2].
    That the answer is for [py_version] alone shows when the call has a
    [py_version] too: with the empty version the evaluator answers
    false and [modify_node] changes nothing, where without any
    [framework_version] keyword the evaluator answers true, whatever
    [py_version] is.  An empty string literal for the image argument is
    treated as absent: the evaluator answers as it does on the call
    without that keyword, so on a call without [framework_version] it
    answers true for the empty image and false for any other string. *)
Theorem empty_version_counts_as_supplied :
  (∀ node : call,
     _is_named_constructor node FRAMEWORK_CLASSES = true →
     binds node FRAMEWORK_ARG (Str "") →
     absent "image_name" node →
     absent PY_ARG node →
     ∃ fw p,
       _framework_from_node node = (fw, false)
       ∧ (fw, p) ∈ [ ("Chainer", "py3"); ("MXNet", "py2"); ("PyTorch", "py3");
                     ("SKLearn", "py3"); ("TensorFlow", "py2") ]
       ∧ _arg_value node FRAMEWORK_ARG = Ok (VStr "")
       ∧ node_should_be_modified node = Ok true
       ∧ modify_node node
         = (mkCall (func node) (args node) (keywords node ++ [py_keyword p]),
            Ok tt))
  ∧ (∀ (node : call) (p : string),
       _is_named_constructor node FRAMEWORK_CLASSES = true →
       binds node FRAMEWORK_ARG (Str "") →
       absent "image_name" node →
       binds node PY_ARG (Str p) →
       node_should_be_modified node = Ok false
       ∧ modify_node node = (node, Ok tt))
  ∧ (∀ node : call,
       _is_named_constructor node FRAMEWORK_CLASSES = true →
       absent FRAMEWORK_ARG node →
       absent "image_name" node →
       node_should_be_modified node = Ok true)
  ∧ (∀ (node : call) (image_arg : string),
       image_arg ∈ ["image_name"; "image"] →
       binds node image_arg (Str "") →
       _version_args_needed node image_arg
       = _version_args_needed (without_keyword image_arg node) image_arg)
  ∧ (∀ (node : call) (s : string),
       _is_named_constructor node FRAMEWORK_CLASSES = true →
       binds node "image_name" (Str s) →
       absent FRAMEWORK_ARG node →
       node_should_be_modified node = Ok (bool_decide (s = ""))).
Proof.
  split; [|split; [|split; [|split]]].
  - intros node Hctor Hb Himg Hpy.
    destruct (is_named_constructor_trailing _ _ Hctor) as (name & Hname & Ht).
    pose proof (framework_from_estimator _ _ Hname Ht) as Hfw.
    pose proof (arg_value_binds _ _ _ Hb) as Hfv. simpl in Hfv.
    assert (Hstep : ∀ p,
      _py_version_defaults name (VStr "") false = Ok (Some p) →
      p ≠ "" →
      _arg_value node FRAMEWORK_ARG = Ok (VStr "")
      ∧ node_should_be_modified node = Ok true
      ∧ modify_node node
        = (mkCall (func node) (args node) (keywords node ++ [py_keyword p]),
           Ok tt)).
    { intros p Hdef Hp. split; [done|]. split.
      - unfold node_should_be_modified. rewrite Hctor.
        apply (version_args_needed_true node "image_name" name (VStr "") p false);
          [done|done|done|done|done|done|by left].
      - rewrite modify_node_unfold, Hfw, Hfv. simpl.
        rewrite (py_version_step_absent _ _ _ p); [done|by left|done..]. }
    apply elem_of_FRAMEWORK_CLASSES in Hname. elem_cases.
    destruct Hname as [->|[->|[->|[->|[->|[]]]]]].
    + exists "Chainer", "py3". finish_empty_version_case.
    + exists "MXNet", "py2". finish_empty_version_case.
    + exists "PyTorch", "py3". finish_empty_version_case.
    + exists "SKLearn", "py3". finish_empty_version_case.
    + exists "TensorFlow", "py2". finish_empty_version_case.
  - intros node p Hctor Hb Himg Hpy. split.
    + unfold node_should_be_modified. rewrite Hctor.
      unfold _version_args_needed.
      rewrite (arg_value_absent _ _ Himg). simpl.
      rewrite (arg_value_binds _ _ _ Hb). simpl.
      destruct (_framework_from_node node) as [fw is_model].
      destruct (py_version_defaults_empty fw is_model) as [d ->]. simpl.
      destruct (str_truthy d); [|done].
      by rewrite (arg_value_binds _ _ _ Hpy).
    + rewrite modify_node_unfold.
      destruct (_framework_from_node node) as [fw is_model].
      rewrite (arg_value_binds _ _ _ Hb). simpl.
      unfold py_version_step. by rewrite (arg_value_binds _ _ _ Hpy).
  - intros node Hctor Hfv Himg.
    unfold node_should_be_modified. rewrite Hctor.
    unfold _version_args_needed.
    rewrite (arg_value_absent _ _ Himg). simpl.
    by rewrite (arg_value_absent _ _ Hfv).
  - intros node image_arg Hin Hb. unfold _version_args_needed.
    rewrite (arg_value_binds _ _ _ Hb), arg_value_without_same. simpl.
    assert (image_arg ≠ FRAMEWORK_ARG ∧ image_arg ≠ PY_ARG) as [Hne1 Hne2].
    { elem_cases. destruct Hin as [->|[->|[]]]; split; discriminate. }
    rewrite !arg_value_without_other by done.
    reflexivity.
  - intros node s Hctor Hb Hfv.
    unfold node_should_be_modified. rewrite Hctor.
    unfold _version_args_needed.
    rewrite (arg_value_binds _ _ _ Hb). simpl.
    case_bool_decide as Hs.
    + subst s. simpl. by rewrite (arg_value_absent _ _ Hfv).
    + apply truthy_nonempty in Hs. by rewrite Hs.
Qed.

(** [TensorFlow(entry_point="train.py", framework_version="")], the same
    with [py_version="py3"], and an empty [image_name]. *)
Lemma empty_version_counts_as_supplied_witness :
  let node :=
    mkCall (Name "TensorFlow") []
      [mkKeyword (Some "entry_point") (Str "train.py");
       mkKeyword (Some "framework_version") (Str "")] in
  let node_py :=
    mkCall (Name "TensorFlow") []
      [mkKeyword (Some "framework_version") (Str "");
       mkKeyword (Some "py_version") (Str "py3")] in
  let node_image :=
    mkCall (Name "TensorFlow") []
      [mkKeyword (Some "image_name") (Str "");
       mkKeyword (Some "entry_point") (Str "train.py")] in
  (∃ fw p,
     _framework_from_node node = (fw, false)
     ∧ (fw, p) ∈ [ ("Chainer", "py3"); ("MXNet", "py2"); ("PyTorch", "py3");
                   ("SKLearn", "py3"); ("TensorFlow", "py2") ]
     ∧ _arg_value node FRAMEWORK_ARG = Ok (VStr "")
     ∧ node_should_be_modified node = Ok true
     ∧ modify_node node
       = (mkCall (func node) (args node) (keywords node ++ [py_keyword p]),
          Ok tt))
  ∧ (node_should_be_modified node_py = Ok false
     ∧ modify_node node_py = (node_py, Ok tt))
  ∧ node_should_be_modified node_image = Ok true
  ∧ _version_args_needed node_image "image_name"
    = _version_args_needed (without_keyword "image_name" node_image) "image_name"
  ∧ node_should_be_modified node_image = Ok (bool_decide ("" = "")).
Proof.
  split; [|split; [|split; [|split]]].
  - apply (proj1 empty_version_counts_as_supplied).
    + vm_compute. reflexivity.
    + exists [mkKeyword (Some "entry_point") (Str "train.py")], [].
      split; [reflexivity|]. repeat constructor. discriminate.
    + forall_by_computation.
    + forall_by_computation.
  - apply (proj1 (proj2 empty_version_counts_as_supplied) _ "py3").
    + vm_compute. reflexivity.
    + exists [], [mkKeyword (Some "py_version") (Str "py3")].
      split; [reflexivity|]. constructor.
    + forall_by_computation.
    + exists [mkKeyword (Some "framework_version") (Str "")], [].
      split; [reflexivity|]. repeat constructor. discriminate.
  - vm_compute. reflexivity.
  - apply (proj1 (proj2 (proj2 (proj2 empty_version_counts_as_supplied)))).
    + apply elem_of_cons. left. reflexivity.
    + exists [], [mkKeyword (Some "entry_point") (Str "train.py")].
      split; [reflexivity|]. constructor.
  - apply (proj2 (proj2 (proj2 (proj2 empty_version_counts_as_supplied))) _ "").
    + vm_compute. reflexivity.
    + exists [], [mkKeyword (Some "entry_point") (Str "train.py")].
      split; [reflexivity|]. constructor.
    + forall_by_computation.
Defined.

(** ** After [modify_node] *)

Lemma defaults_lookup_getitem (fw : string) :
  getitem FRAMEWORK_DEFAULTS fw
  = match FRAMEWORK_DEFAULTS !! fw with
    | Some v => Ok v
    | None => Raise KeyError
    end.
Proof. reflexivity. Qed.

Lemma table_value_defaults_ok (fw v : string) (is_model : bool) :
  FRAMEWORK_DEFAULTS !! fw = Some v →
  ∃ d, _py_version_defaults fw (VStr v) is_model = Ok d.
Proof.
  intros Hl. apply FRAMEWORK_DEFAULTS_lookup in Hl. elem_cases.
  destruct Hl as [[= -> ->]|[[= -> ->]|[[= -> ->]|[[= -> ->]|[[= -> ->]|[]]]]]];
    destruct is_model; eexists; vm_compute; reflexivity.
Qed.

Lemma table_defaults_ok (fw v : string) (is_model : bool) :
  fw ∈ FRAMEWORK_CLASSES →
  getitem FRAMEWORK_DEFAULTS fw = Ok v →
  ∃ d, _py_version_defaults fw (VStr v) is_model = Ok d.
Proof.
  intros _ Hv. rewrite defaults_lookup_getitem in Hv.
  destruct (FRAMEWORK_DEFAULTS !! fw) as [v'|] eqn:Hl; [|discriminate].
  injection Hv as ->. by eapply table_value_defaults_ok.
Qed.

(** The five ways the second half of [modify_node] ends. *)
Lemma py_version_step_cases
    (fw : string) (is_model : bool) (ver : pyval) (node : call) :
  (py_version_step fw is_model ver node = (node, Raise AttributeError)
   ∧ ∃ x, binds node PY_ARG x ∧ ∀ v, x ≠ Constant v)
  ∨ (py_version_step fw is_model ver node = (node, Ok tt)
     ∧ ∃ p, binds node PY_ARG (Constant p) ∧ p ≠ VNone)
  ∨ (∃ e, py_version_step fw is_model ver node = (node, Raise e)
          ∧ unsupplied PY_ARG node
          ∧ _py_version_defaults fw ver is_model = Raise e)
  ∨ (py_version_step fw is_model ver node = (node, Ok tt)
     ∧ unsupplied PY_ARG node
     ∧ ∃ d, _py_version_defaults fw ver is_model = Ok d
            ∧ str_truthy d = false)
  ∨ (∃ p, py_version_step fw is_model ver node
          = (append_keyword node (py_keyword p), Ok tt)
          ∧ unsupplied PY_ARG node
          ∧ _py_version_defaults fw ver is_model = Ok (Some p)
          ∧ p ≠ "").
Proof.
  unfold py_version_step.
  destruct (_arg_value node PY_ARG) as [py|e] eqn:Hpy.
  - destruct (is_None py) eqn:Hn.
    + apply is_None_true in Hn. subst py. apply arg_value_None in Hpy.
      do 2 right.
      destruct (_py_version_defaults fw ver is_model) as [[p|]|e] eqn:Hd.
      * destruct (PyStr.truthy p) eqn:Hp.
        -- do 2 right. exists p. split; [done|]. split; [done|]. split; [done|].
           by apply truthy_nonempty.
        -- right. left. split; [done|]. split; [done|]. by exists (Some p).
      * right. left. split; [done|]. split; [done|]. by exists None.
      * left. by exists e.
    + right. left. split; [done|]. exists py. apply is_None_false in Hn.
      split; [|done].
      apply arg_value_Ok in Hpy as [Hb|[-> _]]; [done|by destruct Hn].
  - left. apply arg_value_Raise_binds in Hpy as [-> Hx]. by split.
Qed.

(** The evaluator answers false once the version is there and, where a
    [py_version] is expected, that one too. *)
Lemma version_args_needed_false
    (node : call) (image_arg fw : string) (v : pyval) (is_model : bool)
    (i : pyval) (d : option string) :
  _arg_value node image_arg = Ok i →
  truthy i = false →
  _arg_value node FRAMEWORK_ARG = Ok v →
  v ≠ VNone →
  _framework_from_node node = (fw, is_model) →
  _py_version_defaults fw v is_model = Ok d →
  (str_truthy d = true → ∃ x, _arg_value node PY_ARG = Ok x ∧ x ≠ VNone) →
  _version_args_needed node image_arg = Ok false.
Proof.
  intros Himg Hi Hfv Hv Hffn Hdef Hpy. unfold _version_args_needed.
  rewrite Himg. simpl. rewrite Hi, Hfv. simpl.
  apply is_None_false in Hv. rewrite Hv, Hffn, Hdef. simpl.
  destruct (str_truthy d); [|done].
  destruct Hpy as (x & -> & Hx); [done|]. simpl.
  apply is_None_false in Hx. by rewrite Hx.
Qed.

Lemma absent_not_binds (a : string) (node : call) (x : expr) :
  absent a node → ¬ binds node a x.
Proof.
  intros Habs (pre & post & Hk & _). unfold absent in Habs. rewrite Hk in Habs.
  apply Forall_app in Habs as [_ Habs]. apply Forall_cons in Habs as [Habs _].
  by apply Habs.
Qed.

Lemma unsupplied_absent (a : string) (node : call) :
  ¬ binds node a (Constant VNone) → unsupplied a node → absent a node.
Proof. intros Hn [H|H]; [done|by destruct Hn]. Qed.

(** When [node_should_be_modified] answers true and [modify_node] ends
    normally, [node_should_be_modified] answers false on the node as
    [modify_node] left it, unless the call binds [framework_version] or
    [py_version] to the literal [None]. *)
Lemma not_modified_twice (node node' : call) :
  node_should_be_modified node = Ok true →
  modify_node node = (node', Ok tt) →
  ¬ binds node FRAMEWORK_ARG (Constant VNone) →
  ¬ binds node PY_ARG (Constant VNone) →
  node_should_be_modified node' = Ok false.
Proof.
  intros Htrue Hmod Hfvn Hpyn.
  destruct (node_should_be_modified_true _ Htrue)
    as (name & fw & is_model & image_arg & Ht & Hfw & Hffn & Hvan & Hne1 & Hne2).
  assert (Hfunc : func node' = func node).
  { pose proof (modify_node_added node) as [Hf _]. by rewrite Hmod in Hf. }
  rewrite (Hvan node' Hfunc).
  rewrite (Hvan node eq_refl) in Htrue. clear Hvan.
  pose proof (framework_from_node_func _ _ Hfunc) as Hffn'. rewrite Hffn in Hffn'.
  rewrite modify_node_unfold, Hffn in Hmod.
  unfold _version_args_needed in Htrue.
  destruct (_arg_value node image_arg) as [i|e] eqn:Himg; [|discriminate].
  simpl in Htrue. destruct (truthy i) eqn:Hi; [discriminate|].
  assert (Hkw_fv : ∀ v, kw_arg (framework_keyword v) ≠ Some image_arg)
    by (intros v [= H]; by rewrite H in Hne1).
  assert (Hkw_py : ∀ v, kw_arg (py_keyword v) ≠ Some image_arg)
    by (intros v [= H]; by rewrite H in Hne2).
  destruct (_arg_value node FRAMEWORK_ARG) as [fv|e] eqn:Hfv; [|discriminate].
  simpl in Htrue. destruct (is_None fv) eqn:Hnone.
  - (* the version was missing *)
    apply is_None_true in Hnone. subst fv.
    pose proof (unsupplied_absent _ _ Hfvn (arg_value_None _ _ Hfv)) as Habs_fv.
    destruct (getitem_defaults _ Hfw) as [v Hv]. rewrite Hv in Hmod.
    destruct (table_defaults_ok fw v is_model Hfw Hv) as [d Hdef].
    set (node1 := append_keyword node (framework_keyword v)) in *.
    assert (Himg1 : _arg_value node1 image_arg = Ok i).
    { unfold node1. by rewrite arg_value_append_other. }
    assert (Hfv1 : _arg_value node1 FRAMEWORK_ARG = Ok (VStr v)).
    { unfold node1, framework_keyword. by rewrite arg_value_append_absent. }
    destruct (py_version_step_cases fw is_model (VStr v) node1)
      as [[Hs _]|[(Hs & p & Hp & Hpn)|[(e & Hs & _)|[(Hs & _ & d' & Hd' & Ht')
                                                  |(p & Hs & Huns & Hd' & Hp)]]]];
      rewrite Hs in Hmod; try discriminate; injection Hmod as <-.
    + apply (version_args_needed_false _ _ fw (VStr v) is_model i d);
        [done|done|done|done|done|done|].
      intros _. exists p. split; [|done]. by rewrite (arg_value_binds _ _ _ Hp).
    + apply (version_args_needed_false _ _ fw (VStr v) is_model i d');
        [done|done|done|done|done|done|]. congruence.
    + assert (Habs_py : absent PY_ARG node1).
      { apply absent_append; [|discriminate].
        apply (unsupplied_absent _ _ Hpyn). apply arg_value_None.
        rewrite <- (arg_value_unsupplied _ _ Huns). symmetry.
        apply arg_value_append_other. discriminate. }
      eapply (version_args_needed_false _ _ fw (VStr v) is_model i (Some p)).
      * rewrite arg_value_append_other by apply Hkw_py. exact Himg1.
      * exact Hi.
      * rewrite arg_value_append_other by discriminate. exact Hfv1.
      * done.
      * exact Hffn'.
      * exact Hd'.
      * intros _. exists (VStr p). split; [|done]. unfold py_keyword.
        by rewrite arg_value_append_absent.
  - (* the version was there: only [py_version] was missing *)
    rewrite Hffn in Htrue.
    destruct (_py_version_defaults fw fv is_model) as [d|e] eqn:Hdef;
      [|discriminate].
    simpl in Htrue. destruct (str_truthy d) eqn:Hd; [|discriminate].
    destruct (_arg_value node PY_ARG) as [py|e] eqn:Hpy; [|discriminate].
    simpl in Htrue. injection Htrue as Hpn. apply is_None_true in Hpn. subst py.
    pose proof (unsupplied_absent _ _ Hpyn (arg_value_None _ _ Hpy)) as Habs_py.
    destruct d as [p|]; [|discriminate]. simpl in Hd.
    unfold py_version_step in Hmod. rewrite Hpy, Hdef in Hmod. simpl in Hmod.
    rewrite Hd in Hmod. injection Hmod as <-.
    apply is_None_false in Hnone.
    eapply (version_args_needed_false _ _ fw fv is_model i (Some p)).
    + rewrite arg_value_append_other by apply Hkw_py. exact Himg.
    + exact Hi.
    + rewrite arg_value_append_other by discriminate. exact Hfv.
    + exact Hnone.
    + exact Hffn'.
    + exact Hdef.
    + intros _. exists (VStr p). split; [|done]. unfold py_keyword.
      by rewrite arg_value_append_absent.
Qed.

(** ** Version strings *)

Lemma list_lt_lex_lt (a b : list Z) : list_lt a b = true ↔ lex_lt a b.
Proof.
  revert b. induction a as [|x a IH]; intros [|y b]; simpl.
  - split; [discriminate|inversion 1].
  - split; [constructor|done].
  - split; [discriminate|inversion 1].
  - destruct (Z.eqb_spec x y) as [->|Hne].
    + rewrite IH. split; [by constructor|].
      inversion 1; subst; [lia|done].
    + rewrite Z.ltb_lt. split; [by constructor|].
      inversion 1; subst; [done|congruence].
Qed.

Lemma list_lt_not_lex_lt (a b : list Z) : ¬ lex_lt a b → list_lt a b = false.
Proof. intros H. apply not_true_is_false. by rewrite list_lt_lex_lt. Qed.

Lemma digit_not_space (c : ascii) :
  PyStr.is_digit c = true → PyStr.is_space c = false.
Proof.
  unfold PyStr.is_digit, PyStr.is_space.
  intros [H1%Nat.leb_le H2%Nat.leb_le]%andb_true_iff.
  rewrite !orb_false_iff, andb_false_iff, !Nat.leb_gt, !Nat.eqb_neq. lia.
Qed.

Lemma digit_not_dot (c : ascii) :
  PyStr.is_digit c = true → Ascii.eqb c "." = false.
Proof. intros H. apply Ascii.eqb_neq. intros ->. discriminate H. Qed.

Lemma digit_val_nonneg (c : ascii) :
  PyStr.is_digit c = true → 0 ≤ PyStr.digit_val c.
Proof.
  unfold PyStr.is_digit, PyStr.digit_val.
  intros [H1%Nat.leb_le _]%andb_true_iff. lia.
Qed.

Lemma decimal_from_nonneg (s : string) (acc : Z) :
  all_digits s → 0 ≤ acc → 0 ≤ decimal_from acc s.
Proof.
  revert acc. induction s as [|c r IH]; simpl; intros acc; [done|].
  intros [Hc Hr] Hacc. apply IH; [done|].
  pose proof (digit_val_nonneg _ Hc). lia.
Qed.

Lemma digits_all_digits (s : string) (acc : Z) :
  all_digits s → PyStr.digits s acc true = Ok (decimal_from acc s).
Proof.
  revert acc. induction s as [|c r IH]; simpl; intros acc; [done|].
  intros [Hc Hr]. rewrite Hc. by apply IH.
Qed.

Lemma rstrip_all_digits (s : string) : all_digits s → PyStr.rstrip s = s.
Proof.
  induction s as [|c r IH]; simpl; [done|]. intros [Hc Hr].
  rewrite (IH Hr). destruct r; [|done].
  by rewrite (digit_not_space _ Hc).
Qed.

Lemma strip_number (s : string) : all_digits s → PyStr.strip s = s.
Proof.
  intros H. unfold PyStr.strip.
  destruct s as [|c r]; simpl; [done|].
  destruct H as [Hc Hr]. rewrite (digit_not_space _ Hc).
  by apply (rstrip_all_digits (String c r)).
Qed.

(** [int] reads a number as the number it writes. *)
Lemma int_number (s : string) :
  is_number s → PyStr.int s = Ok (decimal_value s).
Proof.
  intros [Hne Hs]. unfold PyStr.int. rewrite (strip_number _ Hs).
  destruct s as [|c r]; [done|]. destruct Hs as [Hc Hr].
  transitivity (PyStr.digits (String c r) 0 false).
  - destruct c as [[] [] [] [] [] [] [] []]; try discriminate Hc; reflexivity.
  - simpl. rewrite Hc. by apply digits_all_digits.
Qed.

Lemma split_on_number (s : string) :
  all_digits s → PyStr.split_on "." s = [s].
Proof.
  induction s as [|c r IH]; [done|]. intros [Hc Hr].
  cbn [PyStr.split_on]. by rewrite (digit_not_dot _ Hc), (IH Hr).
Qed.

Lemma split_on_number_dot (s rest : string) :
  all_digits s →
  PyStr.split_on "." (s +:+ "." +:+ rest) = s :: PyStr.split_on "." rest.
Proof.
  induction s as [|c r IH]; [done|]. intros [Hc Hr].
  change (String c r +:+ "." +:+ rest) with (String c (r +:+ "." +:+ rest)).
  cbn [PyStr.split_on]. by rewrite (digit_not_dot _ Hc), (IH Hr).
Qed.

Lemma version_list_dotted (pieces : list string) :
  pieces ≠ [] → Forall is_number pieces →
  version_list (dotted pieces) = Ok (decimal_value <$> pieces).
Proof.
  unfold version_list.
  induction pieces as [|p [|q rest] IH]; [done| |]; intros _ Hall.
  - apply Forall_cons in Hall as [Hp _]. cbn [dotted].
    rewrite (split_on_number _ (proj2 Hp)). simpl.
    by rewrite (int_number _ Hp).
  - apply Forall_cons in Hall as [Hp Hrest].
    change (dotted (p :: q :: rest)) with (p +:+ "." +:+ dotted (q :: rest)).
    rewrite (split_on_number_dot _ _ (proj2 Hp)).
    cbn [mapM]. rewrite (int_number _ Hp). cbn [mbind result_bind].
    rewrite IH by done. reflexivity.
Qed.

Lemma dotted_nonempty (pieces : list string) :
  pieces ≠ [] → Forall is_number pieces → dotted pieces ≠ "".
Proof.
  destruct pieces as [|p rest]; [done|]. intros _ [[Hp _] _]%Forall_cons.
  destruct p as [|c r]; [done|]. by destruct rest.
Qed.

Lemma tf_py_version_default_parsed (v : string) (ns : list Z) :
  v ≠ "" → version_list v = Ok ns →
  _tf_py_version_default (VStr v)
  = Ok (if list_lt ns [1; 12] then "py2"
        else if list_lt ns [2; 2] then "py3" else "py37").
Proof.
  intros Hv Hns. rewrite tf_default_by_type. simpl.
  apply truthy_nonempty in Hv. by rewrite Hv, Hns.
Qed.

(** C4.  For a TensorFlow estimator the [py_version] default is the
    value of [_tf_py_version_default] on the version.  An absent or
    empty version gives [py2].  When the version splits on the dots into
    the integers [ns]: [ns] below [[1, 12]] in the tuple-lexicographic
    order gives [py2]; otherwise [ns] below [[2, 2]] gives [py3];
    otherwise [py37].  Every version written as numbers separated by
    dots does split into non-negative integers, so it gets one of the
    three values.  "1.11.0" gives [py2], "1.12.0" and "2.1.0" give [py3],
    "2.2.0" gives [py37]. *)
Theorem tf_py_version_by_threshold :
  (∀ framework_version,
     _py_version_defaults "TensorFlow" framework_version false
     = (v ← _tf_py_version_default framework_version; Ok (Some v)))
  ∧ _tf_py_version_default VNone = Ok "py2"
  ∧ _tf_py_version_default (VStr "") = Ok "py2"
  ∧ (∀ (v : string) (ns : list Z),
       v ≠ "" → version_list v = Ok ns →
       (lex_lt ns [1; 12] → _tf_py_version_default (VStr v) = Ok "py2")
       ∧ (¬ lex_lt ns [1; 12] → lex_lt ns [2; 2] →
          _tf_py_version_default (VStr v) = Ok "py3")
       ∧ (¬ lex_lt ns [1; 12] → ¬ lex_lt ns [2; 2] →
          _tf_py_version_default (VStr v) = Ok "py37"))
  ∧ (∀ pieces : list string,
       pieces ≠ [] → Forall is_number pieces →
       dotted pieces ≠ ""
       ∧ version_list (dotted pieces) = Ok (decimal_value <$> pieces)
       ∧ Forall (fun n => 0 ≤ n) (decimal_value <$> pieces)
       ∧ ∃ p, _tf_py_version_default (VStr (dotted pieces)) = Ok p
              ∧ p ∈ ["py2"; "py3"; "py37"])
  ∧ _py_version_defaults "TensorFlow" (VStr "1.11.0") false = Ok (Some "py2")
  ∧ _py_version_defaults "TensorFlow" (VStr "1.12.0") false = Ok (Some "py3")
  ∧ _py_version_defaults "TensorFlow" (VStr "2.1.0") false = Ok (Some "py3")
  ∧ _py_version_defaults "TensorFlow" (VStr "2.2.0") false = Ok (Some "py37").
Proof.
  split; [intros fv; reflexivity|].
  split; [reflexivity|]. split; [reflexivity|].
  split; [|split; [|repeat split; vm_compute; reflexivity]].
  - intros v ns Hv Hns. rewrite (tf_py_version_default_parsed _ _ Hv Hns).
    repeat split.
    + intros H%list_lt_lex_lt. by rewrite H.
    + intros H1%list_lt_not_lex_lt H2%list_lt_lex_lt. by rewrite H1, H2.
    + intros H1%list_lt_not_lex_lt H2%list_lt_not_lex_lt. by rewrite H1, H2.
  - intros pieces Hne Hall.
    pose proof (dotted_nonempty _ Hne Hall) as Hd.
    pose proof (version_list_dotted _ Hne Hall) as Hp.
    split; [done|]. split; [done|]. split.
    + apply Forall_fmap. eapply Forall_impl; [exact Hall|].
      intros s [_ Hs]. by apply decimal_from_nonneg.
    + rewrite (tf_py_version_default_parsed _ _ Hd Hp).
      eexists. split; [reflexivity|]. elem_cases.
      repeat case_match; tauto.
Qed.

(** The rule at "1.12.0" and the parse of "2.2.0". *)
Lemma tf_py_version_by_threshold_witness :
  (¬ lex_lt [1; 12; 0] [1; 12] → lex_lt [1; 12; 0] [2; 2] →
   _tf_py_version_default (VStr "1.12.0") = Ok "py3")
  ∧ version_list (dotted ["2"; "2"; "0"]) = Ok [2; 2; 0]
  ∧ _tf_py_version_default (VStr "1.12.0") = Ok "py3".
Proof.
  pose proof (proj1 (proj2 (proj2 (proj2 tf_py_version_by_threshold)))
                "1.12.0" [1; 12; 0]) as Hrule.
  pose proof (proj1 (proj2 (proj2 (proj2 (proj2 tf_py_version_by_threshold))))
                ["2"; "2"; "0"]) as Htotal.
  assert (Hne : "1.12.0" ≠ "") by discriminate.
  assert (Hparse : version_list "1.12.0" = Ok [1; 12; 0])
    by (vm_compute; reflexivity).
  destruct (Hrule Hne Hparse) as (_ & Hpy3 & _).
  assert (Hpieces : ["2"; "2"; "0"] ≠ @nil string) by discriminate.
  assert (Hnum : Forall is_number ["2"; "2"; "0"]).
  { repeat constructor; discriminate. }
  destruct (Htotal Hpieces Hnum) as (_ & Hlist & _).
  split; [exact Hpy3|]. split; [exact Hlist|].
  apply Hpy3.
  - intros H. apply list_lt_lex_lt in H. vm_compute in H. discriminate H.
  - apply list_lt_lex_lt. vm_compute. reflexivity.
Defined.

(** ** Keyword values that are not literals *)

(** C3.  The code does not treat a computed keyword value as absent: the
    lookup reads the field [s] of the value, which only a literal has,
    and fails with [AttributeError]; the evaluator passes the failure
    on.  Evaluated on [TensorFlow(framework_version=version)],
    [TensorFlow(image_name=image)] and
    [TensorFlow(framework_version="1.11.0", py_version=py)]. *)
Theorem computed_keyword_value_raises :
  let by_version :=
    mkCall (Name "TensorFlow") []
      [mkKeyword (Some "framework_version") (Name "version")] in
  let by_image :=
    mkCall (Name "TensorFlow") [] [mkKeyword (Some "image_name") (Name "image")] in
  let by_py :=
    mkCall (Name "TensorFlow") []
      [mkKeyword (Some "framework_version") (Str "1.11.0");
       mkKeyword (Some "py_version") (Name "py")] in
  _arg_value by_version FRAMEWORK_ARG = Raise AttributeError
  ∧ _arg_value by_image "image_name" = Raise AttributeError
  ∧ _arg_value by_py PY_ARG = Raise AttributeError
  ∧ _version_args_needed by_version "image_name" = Raise AttributeError
  ∧ node_should_be_modified by_version = Raise AttributeError
  ∧ node_should_be_modified by_image = Raise AttributeError
  ∧ node_should_be_modified by_py = Raise AttributeError.
Proof. repeat split; vm_compute; reflexivity. Qed.

(** C2.  The code is not idempotent on [TensorFlow(py_version=py)]:
    [node_should_be_modified] answers true, [modify_node] appends
    [framework_version] and then fails with [AttributeError] on the
    computed [py_version], and on the node so left
    [node_should_be_modified] fails with [AttributeError] instead of
    answering false. *)
Theorem modify_then_should_modify_raises :
  let node :=
    mkCall (Name "TensorFlow") [] [mkKeyword (Some "py_version") (Name "py")] in
  let node' :=
    mkCall (Name "TensorFlow") []
      [mkKeyword (Some "py_version") (Name "py");
       mkKeyword (Some "framework_version") (Str "1.11.0")] in
  node_should_be_modified node = Ok true
  ∧ modify_node node = (node', Raise AttributeError)
  ∧ node_should_be_modified node' = Raise AttributeError
  ∧ node_should_be_modified (modify_node node).1 ≠ Ok false.
Proof. repeat split; vm_compute; (reflexivity || discriminate). Qed.

(** ** Keywords bound to [None] *)

(** C8.  The code appends a keyword the call already has.  On
    [MXNet(entry_point="train.py", framework_version=None)] the lookup
    of [framework_version] reads the value of the literal, [None], which
    both functions take for "no keyword": [node_should_be_modified]
    answers true and [modify_node] appends a second
    [framework_version] (and [py_version]) and ends normally.  The same
    happens to [py_version] on
    [MXNet(framework_version="1.2.0", py_version=None)].  The keywords
    the call had are left where they were. *)
Theorem modify_node_repeats_none_keyword :
  let by_version :=
    mkCall (Name "MXNet") []
      [mkKeyword (Some "entry_point") (Str "train.py");
       mkKeyword (Some "framework_version") (Constant VNone)] in
  let by_py :=
    mkCall (Name "MXNet") []
      [mkKeyword (Some "framework_version") (Str "1.2.0");
       mkKeyword (Some "py_version") (Constant VNone)] in
  ¬ absent FRAMEWORK_ARG by_version
  ∧ node_should_be_modified by_version = Ok true
  ∧ modify_node by_version
    = (mkCall (Name "MXNet") []
         [mkKeyword (Some "entry_point") (Str "train.py");
          mkKeyword (Some "framework_version") (Constant VNone);
          mkKeyword (Some "framework_version") (Str "1.2.0");
          mkKeyword (Some "py_version") (Str "py2")],
       Ok tt)
  ∧ ¬ absent PY_ARG by_py
  ∧ node_should_be_modified by_py = Ok true
  ∧ modify_node by_py
    = (mkCall (Name "MXNet") []
         [mkKeyword (Some "framework_version") (Str "1.2.0");
          mkKeyword (Some "py_version") (Constant VNone);
          mkKeyword (Some "py_version") (Str "py2")],
       Ok tt).
Proof.
  split; [|split; [|split; [|split; [|split]]]].
  - intros H. unfold absent in H. simpl in H.
    apply Forall_cons in H as [_ H]. apply Forall_cons in H as [H _]. by apply H.
  - vm_compute. reflexivity.
  - vm_compute. reflexivity.
  - intros H. unfold absent in H. simpl in H.
    apply Forall_cons in H as [_ H]. apply Forall_cons in H as [H _]. by apply H.
  - vm_compute. reflexivity.
  - vm_compute. reflexivity.
Qed.

(** * Further properties of the module *)

(** ** The keyword lookup, completely *)

(** X1.  What [_arg_value] returns, case by case.  It returns the value
    [v] exactly when the first keyword of that name is a literal of
    value [v], of whatever type (a string, a number, bytes, [True],
    [None]), and, for [None], also when no keyword has the name: the
    lookup does not tell a keyword bound to [None] from a missing one.
    It raises exactly when the first keyword of that name is not a
    literal, and the exception is then [AttributeError].  Later keywords
    of the same name and keywords without a name are never looked at. *)
Theorem arg_value_cases (node : call) (a : string) :
  (∀ v, _arg_value node a = Ok v
        ↔ binds node a (Constant v) ∨ (v = VNone ∧ absent a node))
  ∧ (∀ e, _arg_value node a = Raise e
          ↔ e = AttributeError ∧ ∃ x, binds node a x ∧ ∀ v, x ≠ Constant v).
Proof.
  split.
  - intros v. split; [apply arg_value_Ok|].
    intros [Hb|[-> Habs]].
    + by rewrite (arg_value_binds _ _ _ Hb).
    + by apply arg_value_absent.
  - intros e. split; [apply arg_value_Raise_binds|].
    intros (-> & x & Hb & Hx). by eapply arg_value_computed.
Qed.

(** X2.  Lookup after [node.keywords.append]: appending the keyword
    [a=<literal s>] never changes the lookup of another name; it makes
    the lookup of [a] give [s] when the call had no keyword [a]; and it
    leaves the lookup of [a] as it was when the call had one, whatever
    that one is bound to (the first entry wins, so the appended one is
    not read, not even after a keyword bound to [None]). *)
Theorem arg_value_after_append (node : call) (a s : string) :
  (∀ b, a ≠ b →
        _arg_value (append_keyword node (mkKeyword (Some a) (Str s))) b
        = _arg_value node b)
  ∧ (absent a node →
     _arg_value (append_keyword node (mkKeyword (Some a) (Str s))) a
     = Ok (VStr s))
  ∧ (∀ x, binds node a x →
          _arg_value (append_keyword node (mkKeyword (Some a) (Str s))) a
          = _arg_value node a).
Proof.
  split; [|split].
  - intros b Hne. apply arg_value_append_other. simpl. congruence.
  - intros Habs. by rewrite arg_value_append_absent.
  - intros x Hb. by eapply arg_value_append_binds.
Qed.

(** Appending [framework_version="1.2.0"] to [MXNet(entry_point="train.py")]
    and to [MXNet(framework_version=None)]. *)
Lemma arg_value_after_append_witness :
  let node :=
    mkCall (Name "MXNet") [] [mkKeyword (Some "entry_point") (Str "train.py")] in
  let node_none :=
    mkCall (Name "MXNet") []
      [mkKeyword (Some "framework_version") (Constant VNone)] in
  _arg_value (append_keyword node (framework_keyword "1.2.0")) "entry_point"
  = _arg_value node "entry_point"
  ∧ _arg_value (append_keyword node (framework_keyword "1.2.0")) FRAMEWORK_ARG
    = Ok (VStr "1.2.0")
  ∧ _arg_value (append_keyword node_none (framework_keyword "1.2.0"))
      FRAMEWORK_ARG
    = _arg_value node_none FRAMEWORK_ARG.
Proof.
  split; [|split].
  - apply (proj1 (arg_value_after_append _ FRAMEWORK_ARG "1.2.0")).
    discriminate.
  - apply (proj1 (proj2 (arg_value_after_append _ FRAMEWORK_ARG "1.2.0"))).
    forall_by_computation.
  - apply (proj2 (proj2 (arg_value_after_append _ FRAMEWORK_ARG "1.2.0"))
             (Constant VNone)).
    exists [], []. split; [reflexivity|]. constructor.
Defined.

(** ** Idempotence on the calls [modify_node] completes *)

(** X3.  Whenever [node_should_be_modified] answers true, [modify_node]
    ends without an exception, and the call binds neither
    [framework_version] nor [py_version] to the literal [None],
    [node_should_be_modified] answers false on the node as [modify_node]
    left it, and the callee and the positional arguments are the ones
    the node had. *)
Theorem modified_once (node node' : call) :
  node_should_be_modified node = Ok true →
  modify_node node = (node', Ok tt) →
  ¬ binds node FRAMEWORK_ARG (Constant VNone) →
  ¬ binds node PY_ARG (Constant VNone) →
  node_should_be_modified node' = Ok false
  ∧ func node' = func node
  ∧ args node' = args node.
Proof.
  intros Htrue Hmod Hfv Hpy. split; [by eapply not_modified_twice|].
  pose proof (modify_node_added node) as (Hf & Ha & _).
  rewrite Hmod in Hf, Ha. by split.
Qed.

(** [SKLearn(entry_point="train.py", framework_version="0.20.0")]: only
    [py_version] is missing. *)
Lemma modified_once_witness :
  let node :=
    mkCall (Name "SKLearn") []
      [mkKeyword (Some "entry_point") (Str "train.py");
       mkKeyword (Some "framework_version") (Str "0.20.0")] in
  let node' :=
    mkCall (Name "SKLearn") []
      [mkKeyword (Some "entry_point") (Str "train.py");
       mkKeyword (Some "framework_version") (Str "0.20.0");
       mkKeyword (Some "py_version") (Str "py3")] in
  node_should_be_modified node' = Ok false
  ∧ func node' = func node
  ∧ args node' = args node.
Proof.
  apply modified_once.
  - vm_compute. reflexivity.
  - vm_compute. reflexivity.
  - intros Hb%arg_value_binds. vm_compute in Hb. discriminate Hb.
  - apply absent_not_binds. forall_by_computation.
Defined.

(** X20.  A [framework_version] bound to the literal [None] is never
    settled.  On a call that [node_should_be_modified] accepts and whose
    first [framework_version] keyword is [None], [modify_node] appends
    the table value as a further [framework_version] keyword, and
    [node_should_be_modified] answers true again on the node so left
    (the lookup still finds the [None] first), however [modify_node]
    ended.  Every further pass appends once more. *)
Theorem none_version_modified_again (node : call) :
  node_should_be_modified node = Ok true →
  binds node FRAMEWORK_ARG (Constant VNone) →
  node_should_be_modified (modify_node node).1 = Ok true
  ∧ ∃ v rest,
      FRAMEWORK_DEFAULTS !! (_framework_from_node node).1 = Some v
      ∧ keywords (modify_node node).1
        = keywords node ++ framework_keyword v :: rest.
Proof.
  intros Htrue Hb.
  destruct (node_should_be_modified_true _ Htrue)
    as (name & fw & is_model & image_arg & Ht & Hfw & Hffn & Hvan & Hne1 & Hne2).
  pose proof (arg_value_binds _ _ _ Hb) as Hfv. simpl in Hfv.
  destruct (getitem_defaults _ Hfw) as [v Hv].
  assert (Hmod : (modify_node node).1
                 = (py_version_step fw is_model (VStr v)
                      (append_keyword node (framework_keyword v))).1).
  { rewrite modify_node_unfold, Hffn, Hfv. simpl. by rewrite Hv. }
  destruct (py_version_step_frame fw is_model (VStr v)
              (append_keyword node (framework_keyword v)))
    as (py_added & Heq & Hpy).
  rewrite Hmod, Heq, Hffn. simpl. rewrite <- app_assoc. simpl.
  split.
  - rewrite Hvan by done. rewrite (Hvan node eq_refl) in Htrue.
    unfold _version_args_needed in *.
    assert (Himg : _arg_value
                     (mkCall (func node) (args node)
                        (keywords node ++ framework_keyword v :: py_added))
                     image_arg
                   = _arg_value node image_arg).
    { unfold _arg_value. simpl. apply arg_value_loop_app_other.
      constructor; [intros [= H]; by rewrite H in Hne1|].
      destruct Hpy as [->|(p & -> & _)]; [constructor|].
      constructor; [intros [= H]; by rewrite H in Hne2|constructor]. }
    assert (Hfv' : _arg_value
                     (mkCall (func node) (args node)
                        (keywords node ++ framework_keyword v :: py_added))
                     FRAMEWORK_ARG
                   = Ok VNone).
    { rewrite <- Hfv. destruct Hb as (pre & post & Hk & Hpre).
      unfold _arg_value. simpl. rewrite Hk.
      by apply arg_value_loop_app_first. }
    rewrite Himg, Hfv'. rewrite Hfv in Htrue.
    destruct (_arg_value node image_arg) as [i|e]; [|discriminate].
    simpl in *. by destruct (truthy i).
  - exists v, py_added. split; [|done].
    rewrite defaults_lookup_getitem in Hv.
    by destruct (FRAMEWORK_DEFAULTS !! fw) as [v'|]; [injection Hv as ->|].
Qed.

(** [MXNet(framework_version=None)]. *)
Lemma none_version_modified_again_witness :
  let node :=
    mkCall (Name "MXNet") []
      [mkKeyword (Some "framework_version") (Constant VNone)] in
  node_should_be_modified (modify_node node).1 = Ok true
  ∧ ∃ v rest,
      FRAMEWORK_DEFAULTS !! (_framework_from_node node).1 = Some v
      ∧ keywords (modify_node node).1
        = keywords node ++ framework_keyword v :: rest.
Proof.
  apply none_version_modified_again.
  - vm_compute. reflexivity.
  - exists [], []. split; [reflexivity|constructor].
Defined.

(** ** What [modify_node] appends *)

(** X19.  [modify_node] leaves the callee and the positional arguments
    alone and only extends the keyword list at its end: by a
    [framework_version] keyword, added only when the lookup of that name
    found no value (no such keyword, or one bound to [None]), with the
    table entry as its value; followed by a [py_version] keyword, added
    only when the lookup of that name found no value and a non-empty
    default was computed.  So at most two keywords are appended, in that
    order, and the keywords the call had stay where they were.  This
    holds on every node, also when [modify_node] ends with an
    exception. *)
Theorem modify_node_appends_at_end (node : call) :
  func (modify_node node).1 = func node
  ∧ args (modify_node node).1 = args node
  ∧ ∃ fv_added py_added,
      keywords (modify_node node).1 = keywords node ++ fv_added ++ py_added
      ∧ (fv_added = []
         ∨ ∃ v, fv_added = [framework_keyword v]
                ∧ unsupplied FRAMEWORK_ARG node
                ∧ FRAMEWORK_DEFAULTS !! (_framework_from_node node).1 = Some v)
      ∧ (py_added = []
         ∨ ∃ ver p, py_added = [py_keyword p]
                    ∧ unsupplied PY_ARG node
                    ∧ p ≠ ""
                    ∧ _py_version_defaults (_framework_from_node node).1 ver
                        (_framework_from_node node).2 = Ok (Some p)).
Proof.
  rewrite modify_node_unfold.
  destruct (_framework_from_node node) as [framework is_model]. simpl.
  assert (Hsame : func node = func node ∧ args node = args node
    ∧ ∃ fv_added py_added : list keyword,
        keywords node = keywords node ++ fv_added ++ py_added
        ∧ (fv_added = []
           ∨ ∃ v, fv_added = [framework_keyword v]
                  ∧ unsupplied FRAMEWORK_ARG node
                  ∧ FRAMEWORK_DEFAULTS !! framework = Some v)
        ∧ (py_added = []
           ∨ ∃ ver p, py_added = [py_keyword p]
                      ∧ unsupplied PY_ARG node
                      ∧ p ≠ ""
                      ∧ _py_version_defaults framework ver is_model
                        = Ok (Some p))).
  { split; [done|]. split; [done|]. exists [], [].
    rewrite !app_nil_r. by auto. }
  destruct (_arg_value node FRAMEWORK_ARG) as [fv|e] eqn:Hfv; [|exact Hsame].
  destruct (is_None fv) eqn:Hnone.
  - apply is_None_true in Hnone. subst fv. unfold getitem.
    destruct (FRAMEWORK_DEFAULTS !! framework) as [v|] eqn:Hv; [|exact Hsame].
    destruct (py_version_step_frame framework is_model (VStr v)
                (append_keyword node (framework_keyword v)))
      as (py_added & -> & Hpy). simpl.
    split; [done|]. split; [done|]. exists [framework_keyword v], py_added.
    split; [by rewrite <- app_assoc|].
    split.
    + right. exists v. split; [done|]. split; [by apply arg_value_None|done].
    + destruct Hpy as [->|(p & -> & Huns & ? & ?)]; [by left|].
      right. exists (VStr v), p. split; [done|]. split; [|done].
      apply arg_value_None. rewrite <- (arg_value_unsupplied _ _ Huns).
      symmetry. apply arg_value_append_other. discriminate.
  - destruct (py_version_step_frame framework is_model fv node)
      as (py_added & -> & Hpy). simpl.
    split; [done|]. split; [done|]. exists [], py_added.
    split; [done|]. split; [by left|].
    destruct Hpy as [->|(p & -> & ? & ? & ?)]; [by left|].
    right. by exists fv, p.
Qed.

(** ** Versions that are not numbers separated by dots *)

Lemma split_on_not_nil (sep : ascii) (s : string) : PyStr.split_on sep s ≠ [].
Proof.
  induction s as [|c r IH]; simpl; [done|].
  destruct (Ascii.eqb c sep); [done|]. by destruct (PyStr.split_on sep r).
Qed.

(** Splitting around one separator splits both sides. *)
Lemma split_on_app (sep : ascii) (s1 s2 : string) :
  PyStr.split_on sep (s1 +:+ String sep s2)
  = PyStr.split_on sep s1 ++ PyStr.split_on sep s2.
Proof.
  induction s1 as [|c r IH].
  - simpl. by rewrite Ascii.eqb_refl.
  - change (String c r +:+ String sep s2) with (String c (r +:+ String sep s2)).
    cbn [PyStr.split_on]. rewrite IH.
    destruct (Ascii.eqb c sep); [done|].
    pose proof (split_on_not_nil sep r).
    by destruct (PyStr.split_on sep r).
Qed.

Lemma mapM_int_raises (ps : list string) (p : string) :
  p ∈ ps → PyStr.int p = Raise ValueError →
  mapM PyStr.int ps = Raise ValueError.
Proof.
  intros Hin Hp. induction ps as [|q ps IH]; [by apply elem_of_nil in Hin|].
  apply elem_of_cons in Hin as [<-|Hin]; cbn [mapM].
  - by rewrite Hp.
  - destruct (PyStr.int q) as [n|e] eqn:Hq; cbn [mbind result_bind].
    + by rewrite (IH Hin).
    + by rewrite (int_raises _ _ Hq).
Qed.

Lemma mapM_int_raises_inv (ps : list string) (e : exn) :
  mapM PyStr.int ps = Raise e →
  ∃ p, p ∈ ps ∧ PyStr.int p = Raise ValueError.
Proof.
  induction ps as [|q ps IH]; cbn [mapM]; [discriminate|].
  destruct (PyStr.int q) as [n|e'] eqn:Hq; cbn [mbind result_bind].
  - destruct (mapM PyStr.int ps) as [ns|e''] eqn:Hps; cbn [mbind result_bind];
      [discriminate|].
    intros [= <-]. destruct (IH eq_refl) as (p & Hin & Hp).
    exists p. split; [by apply elem_of_cons; right|done].
  - intros _. exists q. split; [by apply elem_of_cons; left|].
    by rewrite Hq, (int_raises _ _ Hq).
Qed.

(** The version does not parse exactly when one of its components is
    not an integer literal. *)
Lemma version_list_raises_iff (v : string) (e : exn) :
  version_list v = Raise e
  ↔ e = ValueError
    ∧ ∃ p, p ∈ PyStr.split_on "." v ∧ PyStr.int p = Raise ValueError.
Proof.
  unfold version_list. split.
  - intros H. split; [by eapply version_list_raises|].
    by eapply mapM_int_raises_inv.
  - intros (-> & p & Hin & Hp). by eapply mapM_int_raises.
Qed.

Lemma tf_default_raises_inv (fv : pyval) (e : exn) :
  _tf_py_version_default fv = Raise e → raising_version fv e.
Proof.
  rewrite tf_default_by_type. unfold raising_version.
  destruct (truthy fv) eqn:Ht; [|discriminate]. cbn [negb].
  destruct fv; try discriminate;
    try (intros [= <-]; right; right;
         split; [done|]; split; [done|]; split; intros ?; discriminate).
  - destruct (version_list s) as [ns|e'] eqn:Hs; [discriminate|].
    simpl. intros [= <-]. left.
    apply version_list_raises_iff in Hs as (-> & p & Hin & Hp).
    split; [done|]. exists s, p. split; [done|].
    split; [by apply truthy_nonempty|done].
  - intros [= <-]. right. left. split; [done|]. exists b.
    split; [done|]. by apply truthy_nonempty.
Qed.

Lemma tf_default_raises (fv : pyval) (e : exn) :
  raising_version fv e → _tf_py_version_default fv = Raise e.
Proof.
  rewrite tf_default_by_type.
  intros [(-> & v & p & -> & Hv & Hin & Hp)
         |[(-> & b & -> & Hb)|(-> & Ht & Hs & Hb)]].
  - simpl. apply truthy_nonempty in Hv. rewrite Hv. cbn [negb].
    assert (Hns : version_list v = Raise ValueError).
    { apply version_list_raises_iff. split; [done|]. by exists p. }
    by rewrite Hns.
  - simpl. apply truthy_nonempty in Hb. by rewrite Hb.
  - rewrite Ht. cbn [negb].
    destruct fv; try reflexivity; [by destruct (Hs s)|by destruct (Hb b)].
Qed.

(** The default raises only for a TensorFlow estimator. *)
Lemma py_version_defaults_raises_inv
    (framework : string) (framework_version : pyval)
    (is_model : bool) (e : exn) :
  _py_version_defaults framework framework_version is_model = Raise e →
  framework = "TensorFlow" ∧ is_model = false
  ∧ raising_version framework_version e.
Proof.
  destruct (py_version_defaults_cases framework framework_version is_model)
    as [(-> & -> & ->)|(_ & d & ->)]; [|discriminate].
  intros H. split; [done|]. split; [done|].
  apply tf_default_raises_inv.
  by destruct (_tf_py_version_default framework_version); [|injection H as ->].
Qed.

Lemma tf_estimator_default_raises (fv : pyval) (e : exn) :
  raising_version fv e →
  _py_version_defaults "TensorFlow" fv false = Raise e.
Proof.
  intros H. rewrite py_version_defaults_tf.
  by rewrite (tf_default_raises _ _ H).
Qed.

(** X4.  [_py_version_defaults] looks into the version for a TensorFlow
    estimator only, and there only when the version is true.  It raises
    exactly when the framework is [TensorFlow], the call is not a model,
    and the version is one of: a non-empty string with a component
    (between dots) that [int] rejects, which gives [ValueError]; a
    non-empty [bytes], which gives [TypeError]; a true value that is
    neither (a number, [True], [...]), which gives [AttributeError].
    For every other framework, for models and for a version that is
    false ([None], empty, zero) it returns, whatever the version is. *)
Theorem py_version_defaults_raises_iff
    (framework : string) (framework_version : pyval)
    (is_model : bool) (e : exn) :
  _py_version_defaults framework framework_version is_model = Raise e
  ↔ framework = "TensorFlow" ∧ is_model = false
    ∧ ((e = ValueError
        ∧ ∃ v p, framework_version = VStr v ∧ v ≠ ""
                 ∧ p ∈ PyStr.split_on "." v ∧ PyStr.int p = Raise ValueError)
       ∨ (e = TypeError ∧ ∃ b, framework_version = VBytes b ∧ b ≠ "")
       ∨ (e = AttributeError ∧ truthy framework_version = true
          ∧ (∀ s, framework_version ≠ VStr s)
          ∧ (∀ b, framework_version ≠ VBytes b))).
Proof.
  split.
  - apply py_version_defaults_raises_inv.
  - intros (-> & -> & H). by apply tf_estimator_default_raises.
Qed.

Lemma occurs_lstrip (c : ascii) (s : string) :
  PyStr.is_space c = false → occurs c s → occurs c (PyStr.lstrip s).
Proof.
  intros Hc. induction s as [|d r IH]; simpl; [done|].
  destruct (PyStr.is_space d) eqn:Hd; [|done].
  intros [->|Hr]; [congruence|by apply IH].
Qed.

Lemma occurs_rstrip (c : ascii) (s : string) :
  PyStr.is_space c = false → occurs c s → occurs c (PyStr.rstrip s).
Proof.
  intros Hc. induction s as [|d r IH]; simpl; [done|].
  intros [->|Hr].
  - destruct (PyStr.rstrip r); [|by left]. rewrite Hc. by left.
  - specialize (IH Hr). destruct (PyStr.rstrip r); [done|by right].
Qed.

Lemma digits_bad_char (c : ascii) (s : string) (acc : Z) (b : bool) :
  not_in_number c → occurs c s → PyStr.digits s acc b = Raise ValueError.
Proof.
  intros (Hdig & _ & Hus & _). revert acc b.
  induction s as [|d r IH]; intros acc b; simpl; [done|].
  intros [<-|Hr].
  - rewrite Hdig. apply Ascii.eqb_neq in Hus. by rewrite Hus.
  - destruct (PyStr.is_digit d); [by apply IH|].
    destruct (Ascii.eqb d "_" && b); [|done].
    destruct r as [|d' r']; [done|].
    destruct (PyStr.is_digit d'); [by apply IH|done].
Qed.

(** [int] rejects a string in which a character occurs that is no digit,
    no white space, no sign and no underscore. *)
Lemma int_bad_char (c : ascii) (s : string) :
  not_in_number c → occurs c s → PyStr.int s = Raise ValueError.
Proof.
  intros Hc Hs. pose proof Hc as (_ & Hsp & _ & Hminus & Hplus).
  assert (Ht : occurs c (PyStr.strip s)).
  { unfold PyStr.strip. by apply occurs_rstrip, occurs_lstrip. }
  unfold PyStr.int. destruct (PyStr.strip s) as [|d r]; [done|].
  assert (Hall : PyStr.digits (String d r) 0 false = Raise ValueError)
    by (by eapply digits_bad_char).
  assert (Hr : d = "-"%char ∨ d = "+"%char → occurs c r).
  { destruct Ht as [->|Hr]; [|done]. by intros [?|?]. }
  assert (Hneg : occurs c r →
                 (n ← PyStr.digits r 0 false; Ok (- n)) = Raise ValueError).
  { intros H. by rewrite (digits_bad_char c r 0 false Hc H). }
  assert (Hpos : occurs c r → PyStr.digits r 0 false = Raise ValueError)
    by (by apply digits_bad_char).
  clear Ht.
  destruct d as [[] [] [] [] [] [] [] []];
    first [ exact Hall
          | apply Hneg, Hr; left; reflexivity
          | apply Hpos, Hr; right; reflexivity ].
Qed.

Lemma occurs_split_on (c sep : ascii) (s : string) :
  c ≠ sep → occurs c s → ∃ p, p ∈ PyStr.split_on sep s ∧ occurs c p.
Proof.
  intros Hc. induction s as [|d r IH]; simpl; [done|].
  pose proof (split_on_not_nil sep r) as Hnil.
  intros [<-|Hr].
  - apply Ascii.eqb_neq in Hc. rewrite Hc.
    destruct (PyStr.split_on sep r) as [|q qs]; [done|].
    exists (String c q). split; [by apply elem_of_cons; left|by left].
  - destruct (IH Hr) as (p & Hin & Hp).
    destruct (Ascii.eqb d sep).
    + exists p. split; [by apply elem_of_cons; right|done].
    + destruct (PyStr.split_on sep r) as [|q qs]; [done|].
      apply elem_of_cons in Hin as [->|Hin].
      * exists (String d q). split; [by apply elem_of_cons; left|by right].
      * exists p. split; [by apply elem_of_cons; right|done].
Qed.

Lemma append_dot_nonempty (s1 s2 : string) : s1 +:+ String "." s2 ≠ "".
Proof. by destruct s1. Qed.

Lemma tf_default_bad_component (v p : string) :
  v ≠ "" → p ∈ PyStr.split_on "." v → PyStr.int p = Raise ValueError →
  _py_version_defaults "TensorFlow" (VStr v) false = Raise ValueError.
Proof.
  intros Hv Hin Hp. apply tf_estimator_default_raises. left.
  split; [done|]. by exists v, p.
Qed.

Lemma tf_default_empty_component (s1 s2 : string) :
  "" ∈ PyStr.split_on "." (s1 +:+ String "." s2) →
  _py_version_defaults "TensorFlow" (VStr (s1 +:+ String "." s2)) false
  = Raise ValueError.
Proof.
  intros Hin. apply (tf_default_bad_component _ ""); [|done..].
  apply append_dot_nonempty.
Qed.

(** X5.  Versions the TensorFlow estimator default rejects with
    [ValueError]: a version with an empty component, that is one that
    ends with a dot, starts with a dot or has two dots in a row; and a
    version in which a character occurs that is neither a dot nor
    something [int] accepts (a digit, white space, a sign, an
    underscore), such as a letter.  This holds for every string of the
    model, the characters from code point 127 on included. *)
Theorem malformed_version_raises :
  (∀ s1 s2 v : string,
     v ∈ [s1 +:+ "."; "." +:+ s2; s1 +:+ ".." +:+ s2] →
     _py_version_defaults "TensorFlow" (VStr v) false = Raise ValueError)
  ∧ (∀ (v : string) (c : ascii),
       occurs c v → c ≠ "."%char → not_in_number c →
       _py_version_defaults "TensorFlow" (VStr v) false = Raise ValueError).
Proof.
  split.
  - intros s1 s2 v Hv. elem_cases. destruct Hv as [->|[->|[->|[]]]].
    + apply (tf_default_empty_component s1 "").
      rewrite split_on_app. apply elem_of_app. right. by apply elem_of_cons; left.
    + apply (tf_default_empty_component "" s2).
      rewrite split_on_app. apply elem_of_app. left. by apply elem_of_cons; left.
    + apply (tf_default_empty_component s1 (String "." s2)).
      rewrite split_on_app. apply elem_of_app. right.
      simpl. by apply elem_of_cons; left.
  - intros v c Hv Hdot Hc.
    destruct (occurs_split_on c "." v Hdot Hv) as (p & Hin & Hp).
    apply (tf_default_bad_component v p); [by destruct v|done|].
    by eapply int_bad_char.
Qed.

(** "2.1." ends with a dot; the letter in "2.1.0rc1". *)
Lemma malformed_version_raises_witness :
  _py_version_defaults "TensorFlow" (VStr "2.1.") false = Raise ValueError
  ∧ _py_version_defaults "TensorFlow" (VStr "2.1.0rc1") false = Raise ValueError.
Proof.
  split.
  - apply (proj1 malformed_version_raises "2.1" "").
    apply elem_of_cons. left. reflexivity.
  - apply (proj2 malformed_version_raises "2.1.0rc1" "r"%char).
    + simpl. do 5 right. left. reflexivity.
    + discriminate.
    + unfold not_in_number. repeat split; (reflexivity || discriminate).
Defined.


(** ** How [modify_node] ends *)

Lemma append_keyword_ne (node : call) (kw : keyword) :
  append_keyword node kw ≠ node.
Proof.
  intros H. apply (f_equal (fun n => length (keywords n))) in H.
  simpl in H. rewrite length_app in H. simpl in H. lia.
Qed.

Lemma append_keyword_twice_ne (node : call) (k1 k2 : keyword) :
  append_keyword (append_keyword node k1) k2 ≠ node.
Proof.
  intros H. apply (f_equal (fun n => length (keywords n))) in H.
  simpl in H. rewrite !length_app in H. simpl in H. lia.
Qed.

Lemma py_version_step_not_KeyError
    (fw : string) (is_model : bool) (ver : pyval) (n n' : call) :
  py_version_step fw is_model ver n ≠ (n', Raise KeyError).
Proof.
  intros H.
  destruct (py_version_step_cases fw is_model ver n)
    as [[Hs _]|[[Hs _]|[(e & Hs & _ & Hd)|[[Hs _]|(p & Hs & _)]]]];
    rewrite Hs in H; try discriminate.
  injection H as _ ->. by apply py_version_defaults_not_KeyError in Hd.
Qed.

(** X6.  [modify_node] raises [KeyError] exactly when the call supplies
    no [framework_version] (no such keyword, or the first one is the
    literal [None]) and the framework derived from the callee is not a
    key of [FRAMEWORK_DEFAULTS]: the defaults lookup is not guarded, so
    [modify_node] relies on being called after
    [node_should_be_modified].  The node is then as it was. *)
Theorem modify_node_key_error (node : call) :
  modify_node node = (node, Raise KeyError)
  ↔ unsupplied FRAMEWORK_ARG node
    ∧ FRAMEWORK_DEFAULTS !! (_framework_from_node node).1 = None.
Proof.
  rewrite modify_node_unfold.
  destruct (_framework_from_node node) as [fw is_model]. simpl.
  split.
  - destruct (_arg_value node FRAMEWORK_ARG) as [fv|e] eqn:Hfv.
    + destruct (is_None fv) eqn:Hn.
      * apply is_None_true in Hn. subst fv.
        rewrite defaults_lookup_getitem.
        destruct (FRAMEWORK_DEFAULTS !! fw) as [v|].
        -- intros H. by destruct (py_version_step_not_KeyError _ _ _ _ _ H).
        -- intros _. split; [by apply arg_value_None|done].
      * intros H. by destruct (py_version_step_not_KeyError _ _ _ _ _ H).
    + intros [= ->]. by apply arg_value_loop_raises in Hfv.
  - intros [Hun Hl]. rewrite (arg_value_unsupplied _ _ Hun). simpl.
    by rewrite defaults_lookup_getitem, Hl.
Qed.



(** X8.  [modify_node] ends normally without touching the node exactly
    when the call binds [framework_version] to a literal other than
    [None] and either binds [py_version] to such a literal too, or
    supplies no [py_version] and none is due (no default, or an empty
    one, for the framework, the version and the kind of class).  In
    particular a call that spells out both versions is never changed,
    whatever the callee is. *)
Theorem modify_node_unchanged (node : call) :
  modify_node node = (node, Ok tt)
  ↔ ∃ v, binds node FRAMEWORK_ARG (Constant v) ∧ v ≠ VNone
         ∧ ((∃ p, binds node PY_ARG (Constant p) ∧ p ≠ VNone)
            ∨ (unsupplied PY_ARG node
               ∧ ∃ d, _py_version_defaults (_framework_from_node node).1
                        v (_framework_from_node node).2 = Ok d
                      ∧ str_truthy d = false)).
Proof.
  rewrite modify_node_unfold.
  destruct (_framework_from_node node) as [fw is_model]. simpl.
  split.
  - destruct (_arg_value node FRAMEWORK_ARG) as [fv|e] eqn:Hfv;
      [|discriminate].
    destruct (is_None fv) eqn:Hn.
    + destruct (getitem FRAMEWORK_DEFAULTS fw) as [v|e]; [|discriminate].
      intros H.
      destruct (py_version_step_cases fw is_model (VStr v)
                  (append_keyword node (framework_keyword v)))
        as [[Hs _]|[[Hs _]|[(e1 & Hs & _)|[[Hs _]|(p & Hs & _)]]]];
        rewrite Hs in H; try discriminate; injection H as H.
      * by destruct (append_keyword_ne _ _ H).
      * by destruct (append_keyword_ne _ _ H).
      * by destruct (append_keyword_twice_ne _ _ _ H).
    + apply is_None_false in Hn. intros H. exists fv.
      split; [by apply arg_value_Ok in Hfv as [Hb|[-> _]]|].
      split; [done|].
      destruct (py_version_step_cases fw is_model fv node)
        as [[Hs _]|[[Hs Hp]|[(e1 & Hs & _)|[(Hs & Hun & Hd)|(p & Hs & _)]]]];
        rewrite Hs in H; try discriminate.
      * by left.
      * by right.
      * injection H as H. by destruct (append_keyword_ne _ _ H).
  - intros (v & Hv & Hnv & Hpy). rewrite (arg_value_binds _ _ _ Hv). simpl.
    apply is_None_false in Hnv. rewrite Hnv.
    unfold py_version_step.
    destruct Hpy as [(p & Hp & Hnp)|(Hun & d & Hd & Ht)].
    + rewrite (arg_value_binds _ _ _ Hp). simpl.
      apply is_None_false in Hnp. by rewrite Hnp.
    + rewrite (arg_value_unsupplied _ _ Hun), Hd. simpl.
      destruct d as [p|]; [|done]. simpl in Ht. by rewrite Ht.
Qed.

(** ** Keyword names stay distinct *)

Lemma absent_not_in_names (a : string) (node : call) :
  absent a node → a ∉ keyword_names node.
Proof.
  unfold absent, keyword_names. intros Habs (kw & Hkw & Harg)%list_elem_of_omap.
  rewrite Forall_forall in Habs. by apply (Habs kw).
Qed.

(** X9.  On a call that binds neither [framework_version] nor
    [py_version] to the literal [None], [modify_node] introduces no
    repeated keyword: when the keyword names of the call are pairwise
    distinct, as Python requires of a call, they still are after
    [modify_node], also when it ends with an exception. *)
Theorem modify_node_no_repeated_keyword (node : call) :
  NoDup (keyword_names node) →
  ¬ binds node FRAMEWORK_ARG (Constant VNone) →
  ¬ binds node PY_ARG (Constant VNone) →
  NoDup (keyword_names (modify_node node).1).
Proof.
  intros Hnd Hnfv Hnpy.
  destruct (modify_node_added node)
    as (_ & _ & fv_added & py_added & Hk & Hfv & Hpy).
  unfold keyword_names. rewrite Hk, !omap_app.
  assert (Hfv' : omap kw_arg fv_added = []
                 ∨ omap kw_arg fv_added = [FRAMEWORK_ARG]
                   ∧ FRAMEWORK_ARG ∉ keyword_names node).
  { destruct Hfv as [->|(v & -> & Hun)]; [by left|].
    right. split; [done|].
    by apply absent_not_in_names, unsupplied_absent. }
  assert (Hpy' : omap kw_arg py_added = []
                 ∨ omap kw_arg py_added = [PY_ARG]
                   ∧ PY_ARG ∉ keyword_names node).
  { destruct Hpy as [->|(p & -> & Hun)]; [by left|].
    right. split; [done|].
    by apply absent_not_in_names, unsupplied_absent. }
  apply NoDup_app. split; [exact Hnd|]. split.
  - intros x Hx [Hin|Hin]%elem_of_app.
    + destruct Hfv' as [H|[H Hn]]; rewrite H in Hin.
      * by apply elem_of_nil in Hin.
      * apply list_elem_of_singleton in Hin as ->. by apply Hn.
    + destruct Hpy' as [H|[H Hn]]; rewrite H in Hin.
      * by apply elem_of_nil in Hin.
      * apply list_elem_of_singleton in Hin as ->. by apply Hn.
  - destruct Hfv' as [->|[-> _]], Hpy' as [->|[-> _]]; simpl;
      repeat constructor; elem_cases; intuition discriminate.
Qed.

(** [MXNet(entry_point="train.py", **kwargs)]. *)
Lemma modify_node_no_repeated_keyword_witness :
  NoDup
    (keyword_names
       (modify_node
          (mkCall (Name "MXNet") []
             [mkKeyword (Some "entry_point") (Str "train.py");
              mkKeyword None (Name "kwargs")])).1).
Proof.
  apply modify_node_no_repeated_keyword.
  - vm_compute. repeat constructor. intros H. inversion H.
  - apply absent_not_binds. forall_by_computation.
  - apply absent_not_binds. forall_by_computation.
Defined.

(** ** What a completed [modify_node] guarantees *)

Lemma binds_append_inv
    (node : call) (kw : keyword) (a : string) (x : expr) :
  kw_arg kw ≠ Some a →
  binds (append_keyword node kw) a x → binds node a x.
Proof.
  intros Hkw (pre & post & Hk & Hpre). simpl in Hk.
  destruct post as [|l post _] using rev_ind.
  - apply (app_inj_tail (keywords node) pre) in Hk as [_ ->]. by destruct Hkw.
  - rewrite app_comm_cons, app_assoc in Hk.
    apply app_inj_tail in Hk as [Hk _]. by exists pre, post.
Qed.

(** What [py_version_step] leaves when it ends normally. *)
Lemma py_version_step_post
    (fw : string) (is_model : bool) (v : pyval) (n node' : call) :
  py_version_step fw is_model v n = (node', Ok tt) →
  ¬ binds n PY_ARG (Constant VNone) →
  _arg_value node' FRAMEWORK_ARG = _arg_value n FRAMEWORK_ARG
  ∧ ∀ p, _py_version_defaults fw v is_model = Ok (Some p) →
         p ≠ "" →
         ∃ x, _arg_value node' PY_ARG = Ok x ∧ x ≠ VNone
              ∧ (binds n PY_ARG (Constant x)
                 ∨ (absent PY_ARG n ∧ x = VStr p)).
Proof.
  intros H Hnone.
  destruct (py_version_step_cases fw is_model v n)
    as [[Hs _]|[[Hs (x & Hx & Hnx)]|[(e & Hs & _)
       |[(Hs & Hun & d & Hd & Ht)|(p & Hs & Hun & Hd & Hp)]]]];
    rewrite Hs in H; try discriminate; injection H as <-.
  - split; [done|]. intros p _ _. exists x.
    split; [by rewrite (arg_value_binds _ _ _ Hx)|]. split; [done|by left].
  - split; [done|]. intros p Hd' Hp. rewrite Hd in Hd'. injection Hd' as ->.
    simpl in Ht. apply truthy_nonempty in Hp. congruence.
  - split; [by rewrite arg_value_append_other|].
    intros p' Hd' _. rewrite Hd in Hd'. injection Hd' as <-. exists (VStr p).
    apply (unsupplied_absent _ _ Hnone) in Hun.
    split; [|split; [done|by right]].
    unfold py_keyword. by rewrite arg_value_append_absent.
Qed.

(** X10.  When [modify_node] ends normally, on a call that binds neither
    [framework_version] nor [py_version] to the literal [None], the node
    it leaves has a readable [framework_version] that is not [None]: the
    literal the call had, or the table value for the framework when the
    call had none.  And when the framework has a non-empty [py_version]
    default for that version, the node has a readable [py_version] too:
    the literal the call had, or that default. *)
Theorem modify_node_postcondition (node node' : call) :
  modify_node node = (node', Ok tt) →
  ¬ binds node FRAMEWORK_ARG (Constant VNone) →
  ¬ binds node PY_ARG (Constant VNone) →
  let framework := (_framework_from_node node).1 in
  let is_model := (_framework_from_node node).2 in
  ∃ v,
    _arg_value node' FRAMEWORK_ARG = Ok v ∧ v ≠ VNone
    ∧ (binds node FRAMEWORK_ARG (Constant v)
       ∨ (absent FRAMEWORK_ARG node
          ∧ ∃ s, v = VStr s ∧ FRAMEWORK_DEFAULTS !! framework = Some s))
    ∧ ∀ p, _py_version_defaults framework v is_model = Ok (Some p) →
           p ≠ "" →
           ∃ x, _arg_value node' PY_ARG = Ok x ∧ x ≠ VNone
                ∧ (binds node PY_ARG (Constant x)
                   ∨ (absent PY_ARG node ∧ x = VStr p)).
Proof.
  rewrite modify_node_unfold.
  destruct (_framework_from_node node) as [fw is_model]. simpl.
  intros H Hnfv Hnpy.
  destruct (_arg_value node FRAMEWORK_ARG) as [fv|e] eqn:Hfv; [|discriminate].
  destruct (is_None fv) eqn:Hn.
  - apply is_None_true in Hn. subst fv. rewrite defaults_lookup_getitem in H.
    destruct (FRAMEWORK_DEFAULTS !! fw) as [s|] eqn:Hl; [|discriminate].
    destruct (py_version_step_post _ _ _ _ _ H) as [Hfv' Hpy].
    { intros Hb. by apply binds_append_inv in Hb. }
    apply arg_value_None in Hfv. apply (unsupplied_absent _ _ Hnfv) in Hfv.
    exists (VStr s).
    split.
    { rewrite Hfv'. unfold framework_keyword.
      by rewrite arg_value_append_absent. }
    split; [done|]. split; [right; split; [done|by exists s]|].
    intros p Hd Hp. destruct (Hpy p Hd Hp) as (x & Hx & Hnx & Hwhere).
    exists x. split; [done|]. split; [done|].
    destruct Hwhere as [Hb|[Habs ->]].
    + left. by apply binds_append_inv in Hb.
    + right. split; [|done].
      unfold absent in *. simpl in Habs. by apply Forall_app in Habs as [? _].
  - apply is_None_false in Hn.
    destruct (py_version_step_post _ _ _ _ _ H Hnpy) as [Hfv' Hpy].
    exists fv. split; [by rewrite Hfv'|]. split; [done|].
    split; [left; by apply arg_value_Ok in Hfv as [Hb|[-> _]]|].
    intros p Hd Hp. destruct (Hpy p Hd Hp) as (x & Hx & Hnx & Hwhere).
    exists x. split; [done|]. split; [done|].
    destruct Hwhere as [Hb|[Habs ->]]; [by left|by right].
Qed.

(** [sagemaker.chainer.Chainer(entry_point="train.py")]. *)
Lemma modify_node_postcondition_witness :
  let node :=
    mkCall (Attribute (Attribute (Name "sagemaker") "chainer") "Chainer") []
      [mkKeyword (Some "entry_point") (Str "train.py")] in
  let node' :=
    mkCall (Attribute (Attribute (Name "sagemaker") "chainer") "Chainer") []
      [mkKeyword (Some "entry_point") (Str "train.py");
       mkKeyword (Some "framework_version") (Str "4.1.0");
       mkKeyword (Some "py_version") (Str "py3")] in
  ∃ v,
    _arg_value node' FRAMEWORK_ARG = Ok v ∧ v ≠ VNone
    ∧ (binds node FRAMEWORK_ARG (Constant v)
       ∨ (absent FRAMEWORK_ARG node
          ∧ ∃ s, v = VStr s
                 ∧ FRAMEWORK_DEFAULTS !! (_framework_from_node node).1 = Some s))
    ∧ ∀ p, _py_version_defaults (_framework_from_node node).1 v
             (_framework_from_node node).2 = Ok (Some p) →
           p ≠ "" →
           ∃ x, _arg_value node' PY_ARG = Ok x ∧ x ≠ VNone
                ∧ (binds node PY_ARG (Constant x)
                   ∨ (absent PY_ARG node ∧ x = VStr p)).
Proof.
  apply (modify_node_postcondition
           (mkCall (Attribute (Attribute (Name "sagemaker") "chainer") "Chainer")
              [] [mkKeyword (Some "entry_point") (Str "train.py")])).
  - vm_compute. reflexivity.
  - apply absent_not_binds. forall_by_computation.
  - apply absent_not_binds. forall_by_computation.
Defined.

(** ** When a call is modified, and when the evaluator fails *)

Lemma version_args_needed_true_iff (node : call) (image_arg : string) :
  _version_args_needed node image_arg = Ok true
  ↔ versions_missing node image_arg.
Proof.
  unfold versions_missing, _version_args_needed.
  destruct (_framework_from_node node) as [fw is_model]. simpl.
  split.
  - destruct (_arg_value node image_arg) as [i|e] eqn:Himg; [|discriminate].
    simpl. destruct (truthy i) eqn:Hi; [discriminate|].
    assert (Himage : absent image_arg node
                     ∨ ∃ i, binds node image_arg (Constant i)
                            ∧ truthy i = false).
    { apply arg_value_Ok in Himg as [Hb|[_ Habs]]; [right|by left].
      by exists i. }
    destruct (_arg_value node FRAMEWORK_ARG) as [fv|e] eqn:Hfv;
      [|discriminate]; simpl.
    destruct (is_None fv) eqn:Hn.
    + apply is_None_true in Hn. subst fv.
      intros _. split; [done|]. left. by apply arg_value_None.
    + apply is_None_false in Hn.
      destruct (_py_version_defaults fw fv is_model) as [d|e] eqn:Hd;
        [|discriminate].
      simpl. destruct (str_truthy d) eqn:Ht; [|discriminate].
      destruct (_arg_value node PY_ARG) as [py|e] eqn:Hpy; [|discriminate].
      simpl. intros [= Hpn]. apply is_None_true in Hpn. subst py.
      split; [done|]. right.
      destruct d as [p|]; [|discriminate]. exists fv, p.
      split; [by apply arg_value_Ok in Hfv as [Hb|[-> _]]|].
      split; [done|]. split; [done|].
      split; [by apply truthy_nonempty|by apply arg_value_None].
  - intros [Himg Hver].
    assert (Hi : ∃ i, _arg_value node image_arg = Ok i ∧ truthy i = false).
    { destruct Himg as [Habs|(i & Hb & Hi)].
      - exists VNone. by rewrite (arg_value_absent _ _ Habs).
      - exists i. by rewrite (arg_value_binds _ _ _ Hb). }
    destruct Hi as (i & -> & Hi). simpl. rewrite Hi.
    destruct Hver as [Hun|(v & p & Hv & Hnv & Hd & Hp & Hpy)].
    + by rewrite (arg_value_unsupplied _ _ Hun).
    + rewrite (arg_value_binds _ _ _ Hv). simpl.
      apply is_None_false in Hnv. rewrite Hnv, Hd. simpl.
      apply truthy_nonempty in Hp. rewrite Hp.
      by rewrite (arg_value_unsupplied _ _ Hpy).
Qed.

(** X11.  [node_should_be_modified] answers true exactly on the calls
    to an estimator class whose [image_name] is absent or a literal that
    is false ([None], empty, zero), and to a model class whose [image]
    is so, that supply no [framework_version] (no such keyword, or the
    literal [None]), or bind it to another literal but supply no
    [py_version] where a non-empty default is due for it.  An unsupplied
    [framework_version] is enough: the [py_version] keyword is then not
    looked at. *)
Theorem node_should_be_modified_true_iff (node : call) :
  node_should_be_modified node = Ok true
  ↔ (_is_named_constructor node FRAMEWORK_CLASSES = true
     ∧ versions_missing node "image_name")
    ∨ (_is_named_constructor node MODEL_CLASSES = true
       ∧ versions_missing node "image").
Proof.
  unfold node_should_be_modified.
  destruct (_is_named_constructor node FRAMEWORK_CLASSES) eqn:He.
  - rewrite version_args_needed_true_iff. split.
    + intros H. by left.
    + intros [[_ H]|[Hm _]]; [done|].
      apply model_not_estimator in Hm. congruence.
  - destruct (_is_named_constructor node MODEL_CLASSES) eqn:Hm.
    + rewrite version_args_needed_true_iff. split.
      * intros H. by right.
      * intros [[? _]|[_ H]]; [discriminate|done].
    + split; [discriminate|]. intros [[? _]|[? _]]; discriminate.
Qed.

Lemma version_args_needed_raises
    (node : call) (image_arg : string) (e : exn) :
  _version_args_needed node image_arg = Raise e →
  (e = AttributeError
   ∧ ∃ a x, a ∈ [image_arg; FRAMEWORK_ARG; PY_ARG]
            ∧ binds node a x ∧ ∀ c, x ≠ Constant c)
  ∨ (_framework_from_node node = ("TensorFlow", false)
     ∧ ∃ fv, binds node FRAMEWORK_ARG (Constant fv)
             ∧ raising_version fv e).
Proof.
  unfold _version_args_needed.
  destruct (_arg_value node image_arg) as [i|e'] eqn:Himg.
  - simpl. destruct (truthy i); [discriminate|].
    destruct (_arg_value node FRAMEWORK_ARG) as [fv|e'] eqn:Hfv; simpl.
    + destruct (is_None fv) eqn:Hn; [discriminate|].
      apply is_None_false in Hn.
      destruct (_framework_from_node node) as [fw is_model].
      destruct (_py_version_defaults fw fv is_model) as [d|e'] eqn:Hd.
      * simpl. destruct (str_truthy d); [|discriminate].
        destruct (_arg_value node PY_ARG) as [x|e'] eqn:Hpy; [discriminate|].
        simpl. intros [= <-]. left.
        apply arg_value_Raise_binds in Hpy as (-> & x & Hx & Hlit).
        split; [done|]. exists PY_ARG, x. split; [|done].
        elem_cases. tauto.
      * simpl. intros [= <-]. right.
        apply py_version_defaults_raises_inv in Hd as (-> & -> & Hd).
        split; [done|]. exists fv.
        split; [by apply arg_value_Ok in Hfv as [Hb|[-> _]]|done].
    + intros [= <-]. left.
      apply arg_value_Raise_binds in Hfv as (-> & x & Hx & Hlit).
      split; [done|]. exists FRAMEWORK_ARG, x. split; [|done].
      elem_cases. tauto.
  - simpl. intros [= <-]. left.
    apply arg_value_Raise_binds in Himg as (-> & x & Hx & Hlit).
    split; [done|]. exists image_arg, x. split; [|done].
    elem_cases. tauto.
Qed.

(** X12.  The ways [node_should_be_modified] fails.  It raises
    [AttributeError] when the call binds one of [image_name], [image],
    [framework_version], [py_version] to something that is not a
    literal.  Otherwise it raises only on a TensorFlow estimator call,
    by the literal [framework_version]: [ValueError] for a non-empty
    string with a component that [int] rejects, [TypeError] for a
    non-empty [bytes], [AttributeError] for a true value that is neither
    (a number, [True], [...]).  It raises nothing else, never
    [KeyError], and nothing at all on a callee that is no framework
    class. *)
Theorem node_should_be_modified_raises (node : call) (e : exn) :
  node_should_be_modified node = Raise e →
  (_is_named_constructor node FRAMEWORK_CLASSES = true
   ∨ _is_named_constructor node MODEL_CLASSES = true)
  ∧ ((e = AttributeError
      ∧ ∃ a x, a ∈ ["image_name"; "image"; FRAMEWORK_ARG; PY_ARG]
               ∧ binds node a x ∧ ∀ c, x ≠ Constant c)
     ∨ (_framework_from_node node = ("TensorFlow", false)
        ∧ ∃ fv,
            binds node FRAMEWORK_ARG (Constant fv)
            ∧ ((e = ValueError
                ∧ ∃ v p, fv = VStr v ∧ v ≠ ""
                         ∧ p ∈ PyStr.split_on "." v
                         ∧ PyStr.int p = Raise ValueError)
               ∨ (e = TypeError ∧ ∃ b, fv = VBytes b ∧ b ≠ "")
               ∨ (e = AttributeError ∧ truthy fv = true
                  ∧ (∀ s, fv ≠ VStr s) ∧ (∀ b, fv ≠ VBytes b))))).
Proof.
  unfold node_should_be_modified.
  destruct (_is_named_constructor node FRAMEWORK_CLASSES) eqn:He;
    [|destruct (_is_named_constructor node MODEL_CLASSES) eqn:Hm;
      [|discriminate]];
    intros [(-> & a & x & Ha & Hx & Hlit)|Hval]%version_args_needed_raises;
    (split; [by auto|]); try (by right).
  - left. split; [done|]. exists a, x. split; [|done].
    elem_cases. tauto.
  - left. split; [done|]. exists a, x. split; [|done].
    elem_cases. tauto.
Qed.

(** [TensorFlow(framework_version="latest")] and
    [TensorFlow(framework_version=2.1)]. *)
Lemma node_should_be_modified_raises_witness :
  let unparsed :=
    mkCall (Name "TensorFlow") []
      [mkKeyword (Some "framework_version") (Str "latest")] in
  let number :=
    mkCall (Name "TensorFlow") []
      [mkKeyword (Some "framework_version") (Constant (VInt 2))] in
  ((_is_named_constructor unparsed FRAMEWORK_CLASSES = true
    ∨ _is_named_constructor unparsed MODEL_CLASSES = true)
   ∧ ((ValueError = AttributeError
       ∧ ∃ a x, a ∈ ["image_name"; "image"; FRAMEWORK_ARG; PY_ARG]
                ∧ binds unparsed a x ∧ ∀ c, x ≠ Constant c)
      ∨ (_framework_from_node unparsed = ("TensorFlow", false)
         ∧ ∃ fv, binds unparsed FRAMEWORK_ARG (Constant fv)
                 ∧ raising_version fv ValueError)))
  ∧ ((_is_named_constructor number FRAMEWORK_CLASSES = true
      ∨ _is_named_constructor number MODEL_CLASSES = true)
     ∧ ((AttributeError = AttributeError
         ∧ ∃ a x, a ∈ ["image_name"; "image"; FRAMEWORK_ARG; PY_ARG]
                  ∧ binds number a x ∧ ∀ c, x ≠ Constant c)
        ∨ (_framework_from_node number = ("TensorFlow", false)
           ∧ ∃ fv, binds number FRAMEWORK_ARG (Constant fv)
                   ∧ raising_version fv AttributeError))).
Proof.
  split.
  - apply (node_should_be_modified_raises
             (mkCall (Name "TensorFlow") []
                [mkKeyword (Some "framework_version") (Str "latest")])).
    vm_compute. reflexivity.
  - apply (node_should_be_modified_raises
             (mkCall (Name "TensorFlow") []
                [mkKeyword (Some "framework_version") (Constant (VInt 2))])).
    vm_compute. reflexivity.
Defined.

(** ** Calls that spell out both versions *)

(** X13.  A call that spells out both versions is left alone:
    [node_should_be_modified] answers false, without an exception,
    whenever [framework_version] and [py_version] are string literals,
    the image arguments are absent or literals, and, for a TensorFlow
    estimator, the version is empty or parses.  The callee may be
    anything, and the values of the literals are not checked against
    any list of versions. *)
Theorem fully_specified_call_not_modified (node : call) (v p : string) :
  binds node FRAMEWORK_ARG (Str v) →
  binds node PY_ARG (Str p) →
  (∀ a, a ∈ ["image_name"; "image"] →
        absent a node ∨ ∃ s, binds node a (Str s)) →
  (_framework_from_node node = ("TensorFlow", false) →
   v = "" ∨ ∃ ns, version_list v = Ok ns) →
  node_should_be_modified node = Ok false.
Proof.
  intros Hv Hp Himg Hparse.
  assert (Hvan : ∀ image_arg, image_arg ∈ ["image_name"; "image"] →
                 _version_args_needed node image_arg = Ok false).
  { intros image_arg Hin. unfold _version_args_needed.
    assert (Hi : ∃ i, _arg_value node image_arg = Ok i).
    { destruct (Himg _ Hin) as [Habs|[s Hs]].
      - exists VNone. by apply arg_value_absent.
      - exists (VStr s). by rewrite (arg_value_binds _ _ _ Hs). }
    destruct Hi as [i ->]. simpl. destruct (truthy i); [done|].
    rewrite (arg_value_binds _ _ _ Hv). simpl.
    destruct (_framework_from_node node) as [fw is_model].
    destruct (_py_version_defaults fw (VStr v) is_model) as [d|e] eqn:Hd.
    - simpl. destruct (str_truthy d); [|done].
      by rewrite (arg_value_binds _ _ _ Hp).
    - apply py_version_defaults_raises_inv in Hd
        as (-> & -> & [(-> & v' & q & [= <-] & Hne & Hin' & Hq)
                      |[(_ & b & [=] & _)|(_ & _ & Hs & _)]]);
        [|by destruct (Hs v)].
      destruct (Hparse eq_refl) as [->|[ns Hns]]; [done|].
      assert (Hr : version_list v = Raise ValueError).
      { apply version_list_raises_iff. split; [done|]. by exists q. }
      congruence. }
  unfold node_should_be_modified.
  destruct (_is_named_constructor node FRAMEWORK_CLASSES).
  - apply Hvan. elem_cases. tauto.
  - destruct (_is_named_constructor node MODEL_CLASSES); [|done].
    apply Hvan. elem_cases. tauto.
Qed.

(** [TensorFlow(entry_point=script, framework_version="1.15.2",
    py_version="py3")]. *)
Lemma fully_specified_call_not_modified_witness :
  node_should_be_modified
    (mkCall (Name "TensorFlow") []
       [mkKeyword (Some "entry_point") (Name "script");
        mkKeyword (Some "framework_version") (Str "1.15.2");
        mkKeyword (Some "py_version") (Str "py3")])
  = Ok false.
Proof.
  apply (fully_specified_call_not_modified _ "1.15.2" "py3").
  - exists [mkKeyword (Some "entry_point") (Name "script")],
           [mkKeyword (Some "py_version") (Str "py3")].
    split; [reflexivity|]. repeat constructor. discriminate.
  - exists [mkKeyword (Some "entry_point") (Name "script");
            mkKeyword (Some "framework_version") (Str "1.15.2")], [].
    split; [reflexivity|]. repeat constructor; discriminate.
  - intros a Ha. left. apply elem_of_cons in Ha as [->|Ha].
    + forall_by_computation.
    + apply list_elem_of_singleton in Ha as ->. forall_by_computation.
  - intros _. right. exists [1; 15; 2]. vm_compute. reflexivity.
Defined.

(** ** The thresholds, component by component *)

(** X14.  The TensorFlow thresholds in terms of the components of the
    version.  With at least two components only the first two count:
    [py2] below 1.12, [py3] from 1.12 up to but not including 2.2,
    [py37] from 2.2 on.  A version of a single component is a proper
    prefix of the bounds it starts, hence below them: "1" gives [py2]
    and "2" gives [py3] (not [py37]). *)
Theorem tf_thresholds_by_components :
  (∀ (v : string) (major : Z),
     v ≠ "" → version_list v = Ok [major] →
     _tf_py_version_default (VStr v)
     = Ok (if decide (major ≤ 1) then "py2"
           else if decide (major ≤ 2) then "py3" else "py37"))
  ∧ (∀ (v : string) (major minor : Z) (rest : list Z),
       v ≠ "" → version_list v = Ok (major :: minor :: rest) →
       _tf_py_version_default (VStr v)
       = Ok (if decide (major < 1 ∨ (major = 1 ∧ minor < 12)) then "py2"
             else if decide (major < 2 ∨ (major = 2 ∧ minor < 2)) then "py3"
             else "py37")).
Proof.
  split.
  - intros v major Hv Hns. rewrite (tf_py_version_default_parsed _ _ Hv Hns).
    cbn [list_lt].
    destruct (Z.eqb_spec major 1), (Z.eqb_spec major 2),
      (Z.ltb_spec major 1), (Z.ltb_spec major 2);
      repeat case_decide; try lia; reflexivity.
  - intros v major minor rest Hv Hns.
    rewrite (tf_py_version_default_parsed _ _ Hv Hns). cbn [list_lt].
    assert (Hrest : list_lt rest [] = false) by (by destruct rest).
    rewrite Hrest.
    destruct (Z.eqb_spec major 1), (Z.eqb_spec major 2),
      (Z.ltb_spec major 1), (Z.ltb_spec major 2),
      (Z.eqb_spec minor 12), (Z.eqb_spec minor 2),
      (Z.ltb_spec minor 12), (Z.ltb_spec minor 2);
      repeat case_decide; try lia; reflexivity.
Qed.

(** "2" and "1.12.3". *)
Lemma tf_thresholds_by_components_witness :
  _tf_py_version_default (VStr "2") = Ok "py3"
  ∧ _tf_py_version_default (VStr "1.12.3") = Ok "py3".
Proof.
  split.
  - apply (proj1 tf_thresholds_by_components "2" 2); [discriminate|].
    vm_compute. reflexivity.
  - apply (proj2 tf_thresholds_by_components "1.12.3" 1 12 [3]); [discriminate|].
    vm_compute. reflexivity.
Defined.

(** ** Keywords the module does not read *)

Lemma version_args_needed_congr (node node' : call) (image_arg : string) :
  func node' = func node →
  (∀ a, a ∈ [image_arg; FRAMEWORK_ARG; PY_ARG] →
        _arg_value node' a = _arg_value node a) →
  _version_args_needed node' image_arg = _version_args_needed node image_arg.
Proof.
  intros Hf Ha. unfold _version_args_needed.
  rewrite (framework_from_node_func _ _ Hf).
  rewrite !Ha by (elem_cases; tauto). reflexivity.
Qed.

Lemma node_should_be_modified_congr (node node' : call) :
  func node' = func node →
  (∀ a, a ∈ ["image_name"; "image"; FRAMEWORK_ARG; PY_ARG] →
        _arg_value node' a = _arg_value node a) →
  node_should_be_modified node' = node_should_be_modified node.
Proof.
  intros Hf Ha. unfold node_should_be_modified.
  rewrite !(is_named_constructor_func _ _ _ Hf).
  rewrite (version_args_needed_congr node node' "image_name" Hf)
    by (intros a Hin; apply Ha; elem_cases; tauto).
  rewrite (version_args_needed_congr node node' "image" Hf)
    by (intros a Hin; apply Ha; elem_cases; tauto).
  reflexivity.
Qed.

(** X15.  [node_should_be_modified] reads the callee and the keywords
    [image_name], [image], [framework_version] and [py_version], and
    nothing else: taking out every keyword of another name, appending a
    keyword of another name or a [**kwargs] entry, and replacing the
    positional arguments all leave its answer (or its exception) as it
    was. *)
Theorem node_should_be_modified_reads_four_keywords (node : call) :
  (∀ b, b ∉ ["image_name"; "image"; FRAMEWORK_ARG; PY_ARG] →
        node_should_be_modified (without_keyword b node)
        = node_should_be_modified node)
  ∧ (∀ kw,
       kw_arg kw ∉ [Some "image_name"; Some "image"; Some FRAMEWORK_ARG;
                    Some PY_ARG] →
       node_should_be_modified (append_keyword node kw)
       = node_should_be_modified node)
  ∧ (∀ positional,
       node_should_be_modified (mkCall (func node) positional (keywords node))
       = node_should_be_modified node).
Proof.
  split; [|split].
  - intros b Hb. apply node_should_be_modified_congr; [done|].
    intros a Ha. apply arg_value_without_other. by intros ->.
  - intros kw Hkw. apply node_should_be_modified_congr; [done|].
    intros a Ha. apply arg_value_append_other. intros Heq. apply Hkw.
    rewrite Heq. elem_cases.
    destruct Ha as [->|[->|[->|[->|[]]]]]; tauto.
  - intros positional. by apply node_should_be_modified_congr.
Qed.

(** Dropping [entry_point] from, and adding [**kwargs] to,
    [PyTorch(entry_point="train.py")]. *)
Lemma node_should_be_modified_reads_four_keywords_witness :
  let node :=
    mkCall (Name "PyTorch") [] [mkKeyword (Some "entry_point") (Str "train.py")] in
  node_should_be_modified (without_keyword "entry_point" node)
  = node_should_be_modified node
  ∧ node_should_be_modified (append_keyword node (mkKeyword None (Name "kwargs")))
    = node_should_be_modified node.
Proof.
  split.
  - apply (proj1 (node_should_be_modified_reads_four_keywords _)).
    elem_cases. intros [H|[H|[H|[H|[]]]]]; discriminate H.
  - apply (proj1 (proj2 (node_should_be_modified_reads_four_keywords _))).
    elem_cases. intros [H|[H|[H|[H|[]]]]]; discriminate H.
Defined.

Lemma without_append (b : string) (node : call) (kw : keyword) :
  kw_arg kw ≠ Some b →
  without_keyword b (append_keyword node kw)
  = append_keyword (without_keyword b node) kw.
Proof.
  intros Hkw. unfold without_keyword, append_keyword. simpl.
  rewrite filter_app. f_equal. f_equal.
  rewrite filter_cons, filter_nil. by rewrite decide_True.
Qed.

Lemma py_version_step_without
    (b fw : string) (is_model : bool) (ver : pyval) (node : call) :
  b ≠ PY_ARG →
  py_version_step fw is_model ver (without_keyword b node)
  = (without_keyword b (py_version_step fw is_model ver node).1,
     (py_version_step fw is_model ver node).2).
Proof.
  intros Hb. unfold py_version_step.
  rewrite arg_value_without_other by done.
  destruct (_arg_value node PY_ARG) as [py|e]; [|reflexivity]. simpl.
  destruct (is_None py); [|reflexivity].
  destruct (_py_version_defaults fw ver is_model) as [[p|]|e];
    try reflexivity.
  destruct (PyStr.truthy p); [|reflexivity]. simpl.
  rewrite without_append; [done|]. simpl. congruence.
Qed.

(** X16.  What [modify_node] appends, and how it ends, depends on the
    callee and on the keywords [framework_version] and [py_version]
    only: taking the keywords of another name out of the call before
    [modify_node] gives the node, and the outcome, that taking them out
    afterwards gives. *)
Theorem modify_node_ignores_other_keywords (node : call) (b : string) :
  b ∉ [FRAMEWORK_ARG; PY_ARG] →
  modify_node (without_keyword b node)
  = (without_keyword b (modify_node node).1, (modify_node node).2).
Proof.
  intros Hb.
  assert (b ≠ FRAMEWORK_ARG ∧ b ≠ PY_ARG) as [Hfv Hpy].
  { elem_cases. split; intros ->; tauto. }
  rewrite !modify_node_unfold.
  rewrite (framework_from_node_func node (without_keyword b node)) by done.
  destruct (_framework_from_node node) as [fw is_model].
  rewrite arg_value_without_other by done.
  destruct (_arg_value node FRAMEWORK_ARG) as [fv|e]; [|reflexivity].
  destruct (is_None fv).
  - destruct (getitem FRAMEWORK_DEFAULTS fw) as [v|e]; [|reflexivity].
    rewrite <- without_append by (simpl; congruence).
    by apply py_version_step_without.
  - by apply py_version_step_without.
Qed.

(** [MXNet(entry_point="train.py", role=role)] without [role]. *)
Lemma modify_node_ignores_other_keywords_witness :
  let node :=
    mkCall (Name "MXNet") []
      [mkKeyword (Some "entry_point") (Str "train.py");
       mkKeyword (Some "role") (Name "role")] in
  modify_node (without_keyword "role" node)
  = (without_keyword "role" (modify_node node).1, (modify_node node).2).
Proof.
  apply modify_node_ignores_other_keywords.
  elem_cases. intros [H|[H|[]]]; discriminate H.
Defined.

(** ** Where the class name is cut *)

Lemma substring_min (k : nat) (s : string) :
  substring 0 (Nat.min k (String.length s)) s = substring 0 k s.
Proof.
  revert k. induction s as [|c r IH]; intros [|k]; simpl; try reflexivity.
  by rewrite IH.
Qed.

Lemma endswith_substring (s suffix : string) :
  PyStr.endswith s suffix = true →
  substring (String.length s - String.length suffix) (String.length suffix) s
  = suffix.
Proof.
  unfold PyStr.endswith. intros [_ H]%andb_true_iff. by apply String.eqb_eq.
Qed.

(** X17.  How [_framework_from_node] cuts the class name.  A name that
    does not end with "Model" is the framework, and the call is no
    model.  A name that ends with "Model" is cut at the first place
    where "Model" occurs in it, which need not be the suffix: the
    framework is what stands before that first occurrence. *)
Theorem framework_cut_at_first_model (node : call) (name : string) :
  trailing_name node name →
  (PyStr.endswith name "Model" = false →
   _framework_from_node node = (name, false))
  ∧ (PyStr.endswith name "Model" = true →
     ∃ k : nat,
       _framework_from_node node = (substring 0 k name, true)
       ∧ substring k 5 name = "Model"
       ∧ ∀ j : nat, (j < k)%nat → substring j 5 name ≠ "Model").
Proof.
  intros Ht. rewrite (framework_from_node_trailing _ _ Ht).
  split; intros Hend; rewrite Hend; [reflexivity|].
  unfold PyStr.find.
  destruct (index 0 "Model" name) as [k|] eqn:Hk.
  - exists k. split; [|split].
    + f_equal. unfold PyStr.slice_to.
      assert (Hlt : (Z.of_nat k <? 0) = false) by (apply Z.ltb_ge; lia).
      rewrite Hlt, <- (substring_min k name). f_equal. lia.
    + exact (index_correct1 _ _ _ _ Hk).
    + intros j Hj. apply (index_correct2 _ _ _ _ Hk); lia.
  - apply endswith_substring in Hend.
    destruct (index_correct3 0 (String.length name - 5) "Model" name Hk);
      [discriminate|lia|exact Hend].
Qed.

(** [ModelZooModel] is cut before its first "Model": the framework is
    empty. *)
Lemma framework_cut_at_first_model_witness :
  ∃ k : nat,
    _framework_from_node (mkCall (Name "ModelZooModel") [] [])
    = (substring 0 k "ModelZooModel", true)
    ∧ substring k 5 "ModelZooModel" = "Model"
    ∧ ∀ j : nat, (j < k)%nat → substring j 5 "ModelZooModel" ≠ "Model".
Proof.
  apply (proj2 (framework_cut_at_first_model
                  (mkCall (Name "ModelZooModel") [] []) "ModelZooModel"
                  (or_introl eq_refl))).
  reflexivity.
Defined.

(** ** The matcher and the model flag agree *)

(** X18.  The two ways the module tells a model from an estimator
    agree.  [node_should_be_modified] picks the image argument by the
    list the callee matched, [modify_node] and the evaluator take the
    model flag from the suffix of the name.  On a callee matched against
    the estimator classes the flag is false and the framework is the
    class name; on one matched against the model classes the flag is
    true and the class name is the framework followed by "Model"; the
    framework is a key of [FRAMEWORK_DEFAULTS] in both cases, and no
    callee matches both lists. *)
Theorem matched_kind_agrees_with_model_flag (node : call) :
  (_is_named_constructor node FRAMEWORK_CLASSES = true →
   ∃ fw, trailing_name node fw
         ∧ _framework_from_node node = (fw, false)
         ∧ is_Some (FRAMEWORK_DEFAULTS !! fw)
         ∧ _is_named_constructor node MODEL_CLASSES = false)
  ∧ (_is_named_constructor node MODEL_CLASSES = true →
     ∃ fw, trailing_name node (fw +:+ "Model")
           ∧ _framework_from_node node = (fw, true)
           ∧ is_Some (FRAMEWORK_DEFAULTS !! fw)
           ∧ _is_named_constructor node FRAMEWORK_CLASSES = false).
Proof.
  assert (Hkey : ∀ fw, fw ∈ FRAMEWORK_CLASSES →
                 is_Some (FRAMEWORK_DEFAULTS !! fw)).
  { intros fw [v Hv]%getitem_defaults. rewrite defaults_lookup_getitem in Hv.
    destruct (FRAMEWORK_DEFAULTS !! fw); [by eexists|discriminate]. }
  split.
  - intros He.
    destruct (is_named_constructor_trailing _ _ He) as (name & Hn & Ht).
    exists name. split; [done|].
    split; [by apply framework_from_estimator|]. split; [by apply Hkey|].
    destruct (_is_named_constructor node MODEL_CLASSES) eqn:Hm; [|done].
    apply model_not_estimator in Hm. congruence.
  - intros Hm.
    destruct (is_named_constructor_trailing _ _ Hm) as (name & Hn & Ht).
    destruct (framework_from_model _ _ Hn Ht) as (fw & Hfw & -> & Hffn).
    exists fw. split; [done|]. split; [done|]. split; [by apply Hkey|].
    by apply model_not_estimator.
Qed.

(** [sagemaker.mxnet.model.MXNetModel(...)]. *)
Lemma matched_kind_agrees_with_model_flag_witness :
  let node :=
    mkCall
      (Attribute (Attribute (Attribute (Name "sagemaker") "mxnet") "model")
         "MXNetModel") [] [] in
  ∃ fw, trailing_name node (fw +:+ "Model")
        ∧ _framework_from_node node = (fw, true)
        ∧ is_Some (FRAMEWORK_DEFAULTS !! fw)
        ∧ _is_named_constructor node FRAMEWORK_CLASSES = false.
Proof.
  apply (proj2 (matched_kind_agrees_with_model_flag _)).
  vm_compute. reflexivity.
Defined.
